(** * cx-core-schemas: the pydantic data contracts of a declarative workflow

    A shallow embedding of [cx_core_schemas/connector_script.py] and
    [cx_core_schemas/notebook.py].

    - In the models a Python [str] is a [string]; a character stands for
      the code point of the same number, so these are the Python strings
      over code points 0..255. The derivation of an identifier from a name
      is also given on strings over all code points, in [PyUnicode], with
      which it agrees on the strings of the models.
    - A Python value handed to a model constructor (the keyword arguments,
      as a document loader produces them) is a [pyval]; a dict is an
      association list in insertion order with string keys.
    - Constructing a model is a function from the keyword arguments to
      [validated]: the model instance, or the error list that pydantic
      raises as a [ValidationError]. *)

From Stdlib Require Import String Ascii List NArith ZArith Bool Lia.
Import ListNotations.
Open Scope string_scope.

(* ================================================================== *)
(** ** Python strings: [str.replace] and [str.lower] *)
(* ================================================================== *)

Module PyStr.

(** [s.replace(old, new)] for an empty [old]: [new] goes before every
    character and after the last one. *)
Fixpoint intersperse (new s : string) : string :=
  match s with
  | EmptyString => new
  | String c s' => new ++ String c (intersperse new s')
  end.

(** [s.replace(old, new)] for a non-empty [old]: the occurrences of [old]
    are found from the left and do not overlap; [skip] counts the
    characters of a match that are still to be dropped. *)
Fixpoint replace_from (old new : string) (skip : nat) (s : string) : string :=
  match s with
  | EmptyString => EmptyString
  | String c s' =>
      match skip with
      | S k => replace_from old new k s'
      | O =>
          if prefix old s
          then new ++ replace_from old new (String.length old - 1) s'
          else String c (replace_from old new 0 s')
      end
  end.

Definition replace (old new s : string) : string :=
  match old with
  | EmptyString => intersperse new s
  | _ => replace_from old new 0 s
  end.

Fixpoint map (f : ascii -> ascii) (s : string) : string :=
  match s with
  | EmptyString => EmptyString
  | String c s' => String (f c) (map f s')
  end.

(** [str.lower] on one code point below 256: the capitals A..Z and the
    Latin-1 capitals U+00C0..U+00DE (the multiplication sign U+00D7 is not
    a letter) move up by 32, every other code point stays. *)
Definition lower_char (c : ascii) : ascii :=
  let n := N_of_ascii c in
  if ((65 <=? n) && (n <=? 90)
      || (192 <=? n) && (n <=? 222) && negb (n =? 215))%N
  then ascii_of_N (n + 32)
  else c.

Definition lower (s : string) : string := map lower_char s.

End PyStr.

(** The expression of [ConnectorStep.set_default_id]:
    [name.replace(" ", "_").replace("-", "_").lower()]. *)
Definition default_id (name : string) : string :=
  PyStr.lower (PyStr.replace "-" "_" (PyStr.replace " " "_" name)).

(** What the expression does to one character. *)
Definition slug_char (c : ascii) : ascii :=
  PyStr.lower_char
    (let c1 := if Ascii.eqb c " " then "_"%char else c in
     if Ascii.eqb c1 "-" then "_"%char else c1).


(* ================================================================== *)
(** ** Python strings over all code points *)
(* ================================================================== *)

(** [str.lower] and [str.replace] on strings as lists of code points, as
    CPython computes them. Lower-casing goes character by character
    through the full lower-case mapping, except for the capital sigma
    U+03A3, which becomes the final sigma U+03C2 or the small sigma U+03C3
    after a look at the characters around it. The three tables are those
    of the Unicode 14.0 database (CPython 3.11). *)
Module PyUnicode.
#[local] Open Scope N_scope.

Definition in_run (c : N) (r : N * N) : bool :=
  (fst r <=? c) && (c <=? snd r).

(** The simple lower-case mappings, as runs [(first, last, image of
    first)]: a run maps its code points to consecutive code points. *)
Definition to_lower_runs : list (N * N * N) :=
  [
    (0x41,0x5a,0x61); (0xc0,0xd6,0xe0); (0xd8,0xde,0xf8); (0x100,0x100,0x101);
    (0x102,0x102,0x103); (0x104,0x104,0x105); (0x106,0x106,0x107);
    (0x108,0x108,0x109); (0x10a,0x10a,0x10b); (0x10c,0x10c,0x10d);
    (0x10e,0x10e,0x10f); (0x110,0x110,0x111); (0x112,0x112,0x113);
    (0x114,0x114,0x115); (0x116,0x116,0x117); (0x118,0x118,0x119);
    (0x11a,0x11a,0x11b); (0x11c,0x11c,0x11d); (0x11e,0x11e,0x11f);
    (0x120,0x120,0x121); (0x122,0x122,0x123); (0x124,0x124,0x125);
    (0x126,0x126,0x127); (0x128,0x128,0x129); (0x12a,0x12a,0x12b);
    (0x12c,0x12c,0x12d); (0x12e,0x12e,0x12f); (0x132,0x132,0x133);
    (0x134,0x134,0x135); (0x136,0x136,0x137); (0x139,0x139,0x13a);
    (0x13b,0x13b,0x13c); (0x13d,0x13d,0x13e); (0x13f,0x13f,0x140);
    (0x141,0x141,0x142); (0x143,0x143,0x144); (0x145,0x145,0x146);
    (0x147,0x147,0x148); (0x14a,0x14a,0x14b); (0x14c,0x14c,0x14d);
    (0x14e,0x14e,0x14f); (0x150,0x150,0x151); (0x152,0x152,0x153);
    (0x154,0x154,0x155); (0x156,0x156,0x157); (0x158,0x158,0x159);
    (0x15a,0x15a,0x15b); (0x15c,0x15c,0x15d); (0x15e,0x15e,0x15f);
    (0x160,0x160,0x161); (0x162,0x162,0x163); (0x164,0x164,0x165);
    (0x166,0x166,0x167); (0x168,0x168,0x169); (0x16a,0x16a,0x16b);
    (0x16c,0x16c,0x16d); (0x16e,0x16e,0x16f); (0x170,0x170,0x171);
    (0x172,0x172,0x173); (0x174,0x174,0x175); (0x176,0x176,0x177);
    (0x178,0x178,0xff); (0x179,0x179,0x17a); (0x17b,0x17b,0x17c);
    (0x17d,0x17d,0x17e); (0x181,0x181,0x253); (0x182,0x182,0x183);
    (0x184,0x184,0x185); (0x186,0x186,0x254); (0x187,0x187,0x188);
    (0x189,0x18a,0x256); (0x18b,0x18b,0x18c); (0x18e,0x18e,0x1dd);
    (0x18f,0x18f,0x259); (0x190,0x190,0x25b); (0x191,0x191,0x192);
    (0x193,0x193,0x260); (0x194,0x194,0x263); (0x196,0x196,0x269);
    (0x197,0x197,0x268); (0x198,0x198,0x199); (0x19c,0x19c,0x26f);
    (0x19d,0x19d,0x272); (0x19f,0x19f,0x275); (0x1a0,0x1a0,0x1a1);
    (0x1a2,0x1a2,0x1a3); (0x1a4,0x1a4,0x1a5); (0x1a6,0x1a6,0x280);
    (0x1a7,0x1a7,0x1a8); (0x1a9,0x1a9,0x283); (0x1ac,0x1ac,0x1ad);
    (0x1ae,0x1ae,0x288); (0x1af,0x1af,0x1b0); (0x1b1,0x1b2,0x28a);
    (0x1b3,0x1b3,0x1b4); (0x1b5,0x1b5,0x1b6); (0x1b7,0x1b7,0x292);
    (0x1b8,0x1b8,0x1b9); (0x1bc,0x1bc,0x1bd); (0x1c4,0x1c4,0x1c6);
    (0x1c5,0x1c5,0x1c6); (0x1c7,0x1c7,0x1c9); (0x1c8,0x1c8,0x1c9);
    (0x1ca,0x1ca,0x1cc); (0x1cb,0x1cb,0x1cc); (0x1cd,0x1cd,0x1ce);
    (0x1cf,0x1cf,0x1d0); (0x1d1,0x1d1,0x1d2); (0x1d3,0x1d3,0x1d4);
    (0x1d5,0x1d5,0x1d6); (0x1d7,0x1d7,0x1d8); (0x1d9,0x1d9,0x1da);
    (0x1db,0x1db,0x1dc); (0x1de,0x1de,0x1df); (0x1e0,0x1e0,0x1e1);
    (0x1e2,0x1e2,0x1e3); (0x1e4,0x1e4,0x1e5); (0x1e6,0x1e6,0x1e7);
    (0x1e8,0x1e8,0x1e9); (0x1ea,0x1ea,0x1eb); (0x1ec,0x1ec,0x1ed);
    (0x1ee,0x1ee,0x1ef); (0x1f1,0x1f1,0x1f3); (0x1f2,0x1f2,0x1f3);
    (0x1f4,0x1f4,0x1f5); (0x1f6,0x1f6,0x195); (0x1f7,0x1f7,0x1bf);
    (0x1f8,0x1f8,0x1f9); (0x1fa,0x1fa,0x1fb); (0x1fc,0x1fc,0x1fd);
    (0x1fe,0x1fe,0x1ff); (0x200,0x200,0x201); (0x202,0x202,0x203);
    (0x204,0x204,0x205); (0x206,0x206,0x207); (0x208,0x208,0x209);
    (0x20a,0x20a,0x20b); (0x20c,0x20c,0x20d); (0x20e,0x20e,0x20f);
    (0x210,0x210,0x211); (0x212,0x212,0x213); (0x214,0x214,0x215);
    (0x216,0x216,0x217); (0x218,0x218,0x219); (0x21a,0x21a,0x21b);
    (0x21c,0x21c,0x21d); (0x21e,0x21e,0x21f); (0x220,0x220,0x19e);
    (0x222,0x222,0x223); (0x224,0x224,0x225); (0x226,0x226,0x227);
    (0x228,0x228,0x229); (0x22a,0x22a,0x22b); (0x22c,0x22c,0x22d);
    (0x22e,0x22e,0x22f); (0x230,0x230,0x231); (0x232,0x232,0x233);
    (0x23a,0x23a,0x2c65); (0x23b,0x23b,0x23c); (0x23d,0x23d,0x19a);
    (0x23e,0x23e,0x2c66); (0x241,0x241,0x242); (0x243,0x243,0x180);
    (0x244,0x244,0x289); (0x245,0x245,0x28c); (0x246,0x246,0x247);
    (0x248,0x248,0x249); (0x24a,0x24a,0x24b); (0x24c,0x24c,0x24d);
    (0x24e,0x24e,0x24f); (0x370,0x370,0x371); (0x372,0x372,0x373);
    (0x376,0x376,0x377); (0x37f,0x37f,0x3f3); (0x386,0x386,0x3ac);
    (0x388,0x38a,0x3ad); (0x38c,0x38c,0x3cc); (0x38e,0x38f,0x3cd);
    (0x391,0x3a1,0x3b1); (0x3a3,0x3ab,0x3c3); (0x3cf,0x3cf,0x3d7);
    (0x3d8,0x3d8,0x3d9); (0x3da,0x3da,0x3db); (0x3dc,0x3dc,0x3dd);
    (0x3de,0x3de,0x3df); (0x3e0,0x3e0,0x3e1); (0x3e2,0x3e2,0x3e3);
    (0x3e4,0x3e4,0x3e5); (0x3e6,0x3e6,0x3e7); (0x3e8,0x3e8,0x3e9);
    (0x3ea,0x3ea,0x3eb); (0x3ec,0x3ec,0x3ed); (0x3ee,0x3ee,0x3ef);
    (0x3f4,0x3f4,0x3b8); (0x3f7,0x3f7,0x3f8); (0x3f9,0x3f9,0x3f2);
    (0x3fa,0x3fa,0x3fb); (0x3fd,0x3ff,0x37b); (0x400,0x40f,0x450);
    (0x410,0x42f,0x430); (0x460,0x460,0x461); (0x462,0x462,0x463);
    (0x464,0x464,0x465); (0x466,0x466,0x467); (0x468,0x468,0x469);
    (0x46a,0x46a,0x46b); (0x46c,0x46c,0x46d); (0x46e,0x46e,0x46f);
    (0x470,0x470,0x471); (0x472,0x472,0x473); (0x474,0x474,0x475);
    (0x476,0x476,0x477); (0x478,0x478,0x479); (0x47a,0x47a,0x47b);
    (0x47c,0x47c,0x47d); (0x47e,0x47e,0x47f); (0x480,0x480,0x481);
    (0x48a,0x48a,0x48b); (0x48c,0x48c,0x48d); (0x48e,0x48e,0x48f);
    (0x490,0x490,0x491); (0x492,0x492,0x493); (0x494,0x494,0x495);
    (0x496,0x496,0x497); (0x498,0x498,0x499); (0x49a,0x49a,0x49b);
    (0x49c,0x49c,0x49d); (0x49e,0x49e,0x49f); (0x4a0,0x4a0,0x4a1);
    (0x4a2,0x4a2,0x4a3); (0x4a4,0x4a4,0x4a5); (0x4a6,0x4a6,0x4a7);
    (0x4a8,0x4a8,0x4a9); (0x4aa,0x4aa,0x4ab); (0x4ac,0x4ac,0x4ad);
    (0x4ae,0x4ae,0x4af); (0x4b0,0x4b0,0x4b1); (0x4b2,0x4b2,0x4b3);
    (0x4b4,0x4b4,0x4b5); (0x4b6,0x4b6,0x4b7); (0x4b8,0x4b8,0x4b9);
    (0x4ba,0x4ba,0x4bb); (0x4bc,0x4bc,0x4bd); (0x4be,0x4be,0x4bf);
    (0x4c0,0x4c0,0x4cf); (0x4c1,0x4c1,0x4c2); (0x4c3,0x4c3,0x4c4);
    (0x4c5,0x4c5,0x4c6); (0x4c7,0x4c7,0x4c8); (0x4c9,0x4c9,0x4ca);
    (0x4cb,0x4cb,0x4cc); (0x4cd,0x4cd,0x4ce); (0x4d0,0x4d0,0x4d1);
    (0x4d2,0x4d2,0x4d3); (0x4d4,0x4d4,0x4d5); (0x4d6,0x4d6,0x4d7);
    (0x4d8,0x4d8,0x4d9); (0x4da,0x4da,0x4db); (0x4dc,0x4dc,0x4dd);
    (0x4de,0x4de,0x4df); (0x4e0,0x4e0,0x4e1); (0x4e2,0x4e2,0x4e3);
    (0x4e4,0x4e4,0x4e5); (0x4e6,0x4e6,0x4e7); (0x4e8,0x4e8,0x4e9);
    (0x4ea,0x4ea,0x4eb); (0x4ec,0x4ec,0x4ed); (0x4ee,0x4ee,0x4ef);
    (0x4f0,0x4f0,0x4f1); (0x4f2,0x4f2,0x4f3); (0x4f4,0x4f4,0x4f5);
    (0x4f6,0x4f6,0x4f7); (0x4f8,0x4f8,0x4f9); (0x4fa,0x4fa,0x4fb);
    (0x4fc,0x4fc,0x4fd); (0x4fe,0x4fe,0x4ff); (0x500,0x500,0x501);
    (0x502,0x502,0x503); (0x504,0x504,0x505); (0x506,0x506,0x507);
    (0x508,0x508,0x509); (0x50a,0x50a,0x50b); (0x50c,0x50c,0x50d);
    (0x50e,0x50e,0x50f); (0x510,0x510,0x511); (0x512,0x512,0x513);
    (0x514,0x514,0x515); (0x516,0x516,0x517); (0x518,0x518,0x519);
    (0x51a,0x51a,0x51b); (0x51c,0x51c,0x51d); (0x51e,0x51e,0x51f);
    (0x520,0x520,0x521); (0x522,0x522,0x523); (0x524,0x524,0x525);
    (0x526,0x526,0x527); (0x528,0x528,0x529); (0x52a,0x52a,0x52b);
    (0x52c,0x52c,0x52d); (0x52e,0x52e,0x52f); (0x531,0x556,0x561);
    (0x10a0,0x10c5,0x2d00); (0x10c7,0x10c7,0x2d27); (0x10cd,0x10cd,0x2d2d);
    (0x13a0,0x13ef,0xab70); (0x13f0,0x13f5,0x13f8); (0x1c90,0x1cba,0x10d0);
    (0x1cbd,0x1cbf,0x10fd); (0x1e00,0x1e00,0x1e01); (0x1e02,0x1e02,0x1e03);
    (0x1e04,0x1e04,0x1e05); (0x1e06,0x1e06,0x1e07); (0x1e08,0x1e08,0x1e09);
    (0x1e0a,0x1e0a,0x1e0b); (0x1e0c,0x1e0c,0x1e0d); (0x1e0e,0x1e0e,0x1e0f);
    (0x1e10,0x1e10,0x1e11); (0x1e12,0x1e12,0x1e13); (0x1e14,0x1e14,0x1e15);
    (0x1e16,0x1e16,0x1e17); (0x1e18,0x1e18,0x1e19); (0x1e1a,0x1e1a,0x1e1b);
    (0x1e1c,0x1e1c,0x1e1d); (0x1e1e,0x1e1e,0x1e1f); (0x1e20,0x1e20,0x1e21);
    (0x1e22,0x1e22,0x1e23); (0x1e24,0x1e24,0x1e25); (0x1e26,0x1e26,0x1e27);
    (0x1e28,0x1e28,0x1e29); (0x1e2a,0x1e2a,0x1e2b); (0x1e2c,0x1e2c,0x1e2d);
    (0x1e2e,0x1e2e,0x1e2f); (0x1e30,0x1e30,0x1e31); (0x1e32,0x1e32,0x1e33);
    (0x1e34,0x1e34,0x1e35); (0x1e36,0x1e36,0x1e37); (0x1e38,0x1e38,0x1e39);
    (0x1e3a,0x1e3a,0x1e3b); (0x1e3c,0x1e3c,0x1e3d); (0x1e3e,0x1e3e,0x1e3f);
    (0x1e40,0x1e40,0x1e41); (0x1e42,0x1e42,0x1e43); (0x1e44,0x1e44,0x1e45);
    (0x1e46,0x1e46,0x1e47); (0x1e48,0x1e48,0x1e49); (0x1e4a,0x1e4a,0x1e4b);
    (0x1e4c,0x1e4c,0x1e4d); (0x1e4e,0x1e4e,0x1e4f); (0x1e50,0x1e50,0x1e51);
    (0x1e52,0x1e52,0x1e53); (0x1e54,0x1e54,0x1e55); (0x1e56,0x1e56,0x1e57);
    (0x1e58,0x1e58,0x1e59); (0x1e5a,0x1e5a,0x1e5b); (0x1e5c,0x1e5c,0x1e5d);
    (0x1e5e,0x1e5e,0x1e5f); (0x1e60,0x1e60,0x1e61); (0x1e62,0x1e62,0x1e63);
    (0x1e64,0x1e64,0x1e65); (0x1e66,0x1e66,0x1e67); (0x1e68,0x1e68,0x1e69);
    (0x1e6a,0x1e6a,0x1e6b); (0x1e6c,0x1e6c,0x1e6d); (0x1e6e,0x1e6e,0x1e6f);
    (0x1e70,0x1e70,0x1e71); (0x1e72,0x1e72,0x1e73); (0x1e74,0x1e74,0x1e75);
    (0x1e76,0x1e76,0x1e77); (0x1e78,0x1e78,0x1e79); (0x1e7a,0x1e7a,0x1e7b);
    (0x1e7c,0x1e7c,0x1e7d); (0x1e7e,0x1e7e,0x1e7f); (0x1e80,0x1e80,0x1e81);
    (0x1e82,0x1e82,0x1e83); (0x1e84,0x1e84,0x1e85); (0x1e86,0x1e86,0x1e87);
    (0x1e88,0x1e88,0x1e89); (0x1e8a,0x1e8a,0x1e8b); (0x1e8c,0x1e8c,0x1e8d);
    (0x1e8e,0x1e8e,0x1e8f); (0x1e90,0x1e90,0x1e91); (0x1e92,0x1e92,0x1e93);
    (0x1e94,0x1e94,0x1e95); (0x1e9e,0x1e9e,0xdf); (0x1ea0,0x1ea0,0x1ea1);
    (0x1ea2,0x1ea2,0x1ea3); (0x1ea4,0x1ea4,0x1ea5); (0x1ea6,0x1ea6,0x1ea7);
    (0x1ea8,0x1ea8,0x1ea9); (0x1eaa,0x1eaa,0x1eab); (0x1eac,0x1eac,0x1ead);
    (0x1eae,0x1eae,0x1eaf); (0x1eb0,0x1eb0,0x1eb1); (0x1eb2,0x1eb2,0x1eb3);
    (0x1eb4,0x1eb4,0x1eb5); (0x1eb6,0x1eb6,0x1eb7); (0x1eb8,0x1eb8,0x1eb9);
    (0x1eba,0x1eba,0x1ebb); (0x1ebc,0x1ebc,0x1ebd); (0x1ebe,0x1ebe,0x1ebf);
    (0x1ec0,0x1ec0,0x1ec1); (0x1ec2,0x1ec2,0x1ec3); (0x1ec4,0x1ec4,0x1ec5);
    (0x1ec6,0x1ec6,0x1ec7); (0x1ec8,0x1ec8,0x1ec9); (0x1eca,0x1eca,0x1ecb);
    (0x1ecc,0x1ecc,0x1ecd); (0x1ece,0x1ece,0x1ecf); (0x1ed0,0x1ed0,0x1ed1);
    (0x1ed2,0x1ed2,0x1ed3); (0x1ed4,0x1ed4,0x1ed5); (0x1ed6,0x1ed6,0x1ed7);
    (0x1ed8,0x1ed8,0x1ed9); (0x1eda,0x1eda,0x1edb); (0x1edc,0x1edc,0x1edd);
    (0x1ede,0x1ede,0x1edf); (0x1ee0,0x1ee0,0x1ee1); (0x1ee2,0x1ee2,0x1ee3);
    (0x1ee4,0x1ee4,0x1ee5); (0x1ee6,0x1ee6,0x1ee7); (0x1ee8,0x1ee8,0x1ee9);
    (0x1eea,0x1eea,0x1eeb); (0x1eec,0x1eec,0x1eed); (0x1eee,0x1eee,0x1eef);
    (0x1ef0,0x1ef0,0x1ef1); (0x1ef2,0x1ef2,0x1ef3); (0x1ef4,0x1ef4,0x1ef5);
    (0x1ef6,0x1ef6,0x1ef7); (0x1ef8,0x1ef8,0x1ef9); (0x1efa,0x1efa,0x1efb);
    (0x1efc,0x1efc,0x1efd); (0x1efe,0x1efe,0x1eff); (0x1f08,0x1f0f,0x1f00);
    (0x1f18,0x1f1d,0x1f10); (0x1f28,0x1f2f,0x1f20); (0x1f38,0x1f3f,0x1f30);
    (0x1f48,0x1f4d,0x1f40); (0x1f59,0x1f59,0x1f51); (0x1f5b,0x1f5b,0x1f53);
    (0x1f5d,0x1f5d,0x1f55); (0x1f5f,0x1f5f,0x1f57); (0x1f68,0x1f6f,0x1f60);
    (0x1f88,0x1f8f,0x1f80); (0x1f98,0x1f9f,0x1f90); (0x1fa8,0x1faf,0x1fa0);
    (0x1fb8,0x1fb9,0x1fb0); (0x1fba,0x1fbb,0x1f70); (0x1fbc,0x1fbc,0x1fb3);
    (0x1fc8,0x1fcb,0x1f72); (0x1fcc,0x1fcc,0x1fc3); (0x1fd8,0x1fd9,0x1fd0);
    (0x1fda,0x1fdb,0x1f76); (0x1fe8,0x1fe9,0x1fe0); (0x1fea,0x1feb,0x1f7a);
    (0x1fec,0x1fec,0x1fe5); (0x1ff8,0x1ff9,0x1f78); (0x1ffa,0x1ffb,0x1f7c);
    (0x1ffc,0x1ffc,0x1ff3); (0x2126,0x2126,0x3c9); (0x212a,0x212a,0x6b);
    (0x212b,0x212b,0xe5); (0x2132,0x2132,0x214e); (0x2160,0x216f,0x2170);
    (0x2183,0x2183,0x2184); (0x24b6,0x24cf,0x24d0); (0x2c00,0x2c2f,0x2c30);
    (0x2c60,0x2c60,0x2c61); (0x2c62,0x2c62,0x26b); (0x2c63,0x2c63,0x1d7d);
    (0x2c64,0x2c64,0x27d); (0x2c67,0x2c67,0x2c68); (0x2c69,0x2c69,0x2c6a);
    (0x2c6b,0x2c6b,0x2c6c); (0x2c6d,0x2c6d,0x251); (0x2c6e,0x2c6e,0x271);
    (0x2c6f,0x2c6f,0x250); (0x2c70,0x2c70,0x252); (0x2c72,0x2c72,0x2c73);
    (0x2c75,0x2c75,0x2c76); (0x2c7e,0x2c7f,0x23f); (0x2c80,0x2c80,0x2c81);
    (0x2c82,0x2c82,0x2c83); (0x2c84,0x2c84,0x2c85); (0x2c86,0x2c86,0x2c87);
    (0x2c88,0x2c88,0x2c89); (0x2c8a,0x2c8a,0x2c8b); (0x2c8c,0x2c8c,0x2c8d);
    (0x2c8e,0x2c8e,0x2c8f); (0x2c90,0x2c90,0x2c91); (0x2c92,0x2c92,0x2c93);
    (0x2c94,0x2c94,0x2c95); (0x2c96,0x2c96,0x2c97); (0x2c98,0x2c98,0x2c99);
    (0x2c9a,0x2c9a,0x2c9b); (0x2c9c,0x2c9c,0x2c9d); (0x2c9e,0x2c9e,0x2c9f);
    (0x2ca0,0x2ca0,0x2ca1); (0x2ca2,0x2ca2,0x2ca3); (0x2ca4,0x2ca4,0x2ca5);
    (0x2ca6,0x2ca6,0x2ca7); (0x2ca8,0x2ca8,0x2ca9); (0x2caa,0x2caa,0x2cab);
    (0x2cac,0x2cac,0x2cad); (0x2cae,0x2cae,0x2caf); (0x2cb0,0x2cb0,0x2cb1);
    (0x2cb2,0x2cb2,0x2cb3); (0x2cb4,0x2cb4,0x2cb5); (0x2cb6,0x2cb6,0x2cb7);
    (0x2cb8,0x2cb8,0x2cb9); (0x2cba,0x2cba,0x2cbb); (0x2cbc,0x2cbc,0x2cbd);
    (0x2cbe,0x2cbe,0x2cbf); (0x2cc0,0x2cc0,0x2cc1); (0x2cc2,0x2cc2,0x2cc3);
    (0x2cc4,0x2cc4,0x2cc5); (0x2cc6,0x2cc6,0x2cc7); (0x2cc8,0x2cc8,0x2cc9);
    (0x2cca,0x2cca,0x2ccb); (0x2ccc,0x2ccc,0x2ccd); (0x2cce,0x2cce,0x2ccf);
    (0x2cd0,0x2cd0,0x2cd1); (0x2cd2,0x2cd2,0x2cd3); (0x2cd4,0x2cd4,0x2cd5);
    (0x2cd6,0x2cd6,0x2cd7); (0x2cd8,0x2cd8,0x2cd9); (0x2cda,0x2cda,0x2cdb);
    (0x2cdc,0x2cdc,0x2cdd); (0x2cde,0x2cde,0x2cdf); (0x2ce0,0x2ce0,0x2ce1);
    (0x2ce2,0x2ce2,0x2ce3); (0x2ceb,0x2ceb,0x2cec); (0x2ced,0x2ced,0x2cee);
    (0x2cf2,0x2cf2,0x2cf3); (0xa640,0xa640,0xa641); (0xa642,0xa642,0xa643);
    (0xa644,0xa644,0xa645); (0xa646,0xa646,0xa647); (0xa648,0xa648,0xa649);
    (0xa64a,0xa64a,0xa64b); (0xa64c,0xa64c,0xa64d); (0xa64e,0xa64e,0xa64f);
    (0xa650,0xa650,0xa651); (0xa652,0xa652,0xa653); (0xa654,0xa654,0xa655);
    (0xa656,0xa656,0xa657); (0xa658,0xa658,0xa659); (0xa65a,0xa65a,0xa65b);
    (0xa65c,0xa65c,0xa65d); (0xa65e,0xa65e,0xa65f); (0xa660,0xa660,0xa661);
    (0xa662,0xa662,0xa663); (0xa664,0xa664,0xa665); (0xa666,0xa666,0xa667);
    (0xa668,0xa668,0xa669); (0xa66a,0xa66a,0xa66b); (0xa66c,0xa66c,0xa66d);
    (0xa680,0xa680,0xa681); (0xa682,0xa682,0xa683); (0xa684,0xa684,0xa685);
    (0xa686,0xa686,0xa687); (0xa688,0xa688,0xa689); (0xa68a,0xa68a,0xa68b);
    (0xa68c,0xa68c,0xa68d); (0xa68e,0xa68e,0xa68f); (0xa690,0xa690,0xa691);
    (0xa692,0xa692,0xa693); (0xa694,0xa694,0xa695); (0xa696,0xa696,0xa697);
    (0xa698,0xa698,0xa699); (0xa69a,0xa69a,0xa69b); (0xa722,0xa722,0xa723);
    (0xa724,0xa724,0xa725); (0xa726,0xa726,0xa727); (0xa728,0xa728,0xa729);
    (0xa72a,0xa72a,0xa72b); (0xa72c,0xa72c,0xa72d); (0xa72e,0xa72e,0xa72f);
    (0xa732,0xa732,0xa733); (0xa734,0xa734,0xa735); (0xa736,0xa736,0xa737);
    (0xa738,0xa738,0xa739); (0xa73a,0xa73a,0xa73b); (0xa73c,0xa73c,0xa73d);
    (0xa73e,0xa73e,0xa73f); (0xa740,0xa740,0xa741); (0xa742,0xa742,0xa743);
    (0xa744,0xa744,0xa745); (0xa746,0xa746,0xa747); (0xa748,0xa748,0xa749);
    (0xa74a,0xa74a,0xa74b); (0xa74c,0xa74c,0xa74d); (0xa74e,0xa74e,0xa74f);
    (0xa750,0xa750,0xa751); (0xa752,0xa752,0xa753); (0xa754,0xa754,0xa755);
    (0xa756,0xa756,0xa757); (0xa758,0xa758,0xa759); (0xa75a,0xa75a,0xa75b);
    (0xa75c,0xa75c,0xa75d); (0xa75e,0xa75e,0xa75f); (0xa760,0xa760,0xa761);
    (0xa762,0xa762,0xa763); (0xa764,0xa764,0xa765); (0xa766,0xa766,0xa767);
    (0xa768,0xa768,0xa769); (0xa76a,0xa76a,0xa76b); (0xa76c,0xa76c,0xa76d);
    (0xa76e,0xa76e,0xa76f); (0xa779,0xa779,0xa77a); (0xa77b,0xa77b,0xa77c);
    (0xa77d,0xa77d,0x1d79); (0xa77e,0xa77e,0xa77f); (0xa780,0xa780,0xa781);
    (0xa782,0xa782,0xa783); (0xa784,0xa784,0xa785); (0xa786,0xa786,0xa787);
    (0xa78b,0xa78b,0xa78c); (0xa78d,0xa78d,0x265); (0xa790,0xa790,0xa791);
    (0xa792,0xa792,0xa793); (0xa796,0xa796,0xa797); (0xa798,0xa798,0xa799);
    (0xa79a,0xa79a,0xa79b); (0xa79c,0xa79c,0xa79d); (0xa79e,0xa79e,0xa79f);
    (0xa7a0,0xa7a0,0xa7a1); (0xa7a2,0xa7a2,0xa7a3); (0xa7a4,0xa7a4,0xa7a5);
    (0xa7a6,0xa7a6,0xa7a7); (0xa7a8,0xa7a8,0xa7a9); (0xa7aa,0xa7aa,0x266);
    (0xa7ab,0xa7ab,0x25c); (0xa7ac,0xa7ac,0x261); (0xa7ad,0xa7ad,0x26c);
    (0xa7ae,0xa7ae,0x26a); (0xa7b0,0xa7b0,0x29e); (0xa7b1,0xa7b1,0x287);
    (0xa7b2,0xa7b2,0x29d); (0xa7b3,0xa7b3,0xab53); (0xa7b4,0xa7b4,0xa7b5);
    (0xa7b6,0xa7b6,0xa7b7); (0xa7b8,0xa7b8,0xa7b9); (0xa7ba,0xa7ba,0xa7bb);
    (0xa7bc,0xa7bc,0xa7bd); (0xa7be,0xa7be,0xa7bf); (0xa7c0,0xa7c0,0xa7c1);
    (0xa7c2,0xa7c2,0xa7c3); (0xa7c4,0xa7c4,0xa794); (0xa7c5,0xa7c5,0x282);
    (0xa7c6,0xa7c6,0x1d8e); (0xa7c7,0xa7c7,0xa7c8); (0xa7c9,0xa7c9,0xa7ca);
    (0xa7d0,0xa7d0,0xa7d1); (0xa7d6,0xa7d6,0xa7d7); (0xa7d8,0xa7d8,0xa7d9);
    (0xa7f5,0xa7f5,0xa7f6); (0xff21,0xff3a,0xff41); (0x10400,0x10427,0x10428);
    (0x104b0,0x104d3,0x104d8); (0x10570,0x1057a,0x10597);
    (0x1057c,0x1058a,0x105a3); (0x1058c,0x10592,0x105b3);
    (0x10594,0x10595,0x105bb); (0x10c80,0x10cb2,0x10cc0);
    (0x118a0,0x118bf,0x118c0); (0x16e40,0x16e5f,0x16e60);
    (0x1e900,0x1e921,0x1e922)
  ].

(** The code points with the property Case_Ignorable. *)
Definition case_ignorable_runs : list (N * N) :=
  [
    (0x27,0x27); (0x2e,0x2e); (0x3a,0x3a); (0x5e,0x5e); (0x60,0x60);
    (0xa8,0xa8); (0xad,0xad); (0xaf,0xaf); (0xb4,0xb4); (0xb7,0xb8);
    (0x2b0,0x36f); (0x374,0x375); (0x37a,0x37a); (0x384,0x385); (0x387,0x387);
    (0x483,0x489); (0x559,0x559); (0x55f,0x55f); (0x591,0x5bd); (0x5bf,0x5bf);
    (0x5c1,0x5c2); (0x5c4,0x5c5); (0x5c7,0x5c7); (0x5f4,0x5f4); (0x600,0x605);
    (0x610,0x61a); (0x61c,0x61c); (0x640,0x640); (0x64b,0x65f); (0x670,0x670);
    (0x6d6,0x6dd); (0x6df,0x6e8); (0x6ea,0x6ed); (0x70f,0x70f); (0x711,0x711);
    (0x730,0x74a); (0x7a6,0x7b0); (0x7eb,0x7f5); (0x7fa,0x7fa); (0x7fd,0x7fd);
    (0x816,0x82d); (0x859,0x85b); (0x888,0x888); (0x890,0x891); (0x898,0x89f);
    (0x8c9,0x902); (0x93a,0x93a); (0x93c,0x93c); (0x941,0x948); (0x94d,0x94d);
    (0x951,0x957); (0x962,0x963); (0x971,0x971); (0x981,0x981); (0x9bc,0x9bc);
    (0x9c1,0x9c4); (0x9cd,0x9cd); (0x9e2,0x9e3); (0x9fe,0x9fe); (0xa01,0xa02);
    (0xa3c,0xa3c); (0xa41,0xa42); (0xa47,0xa48); (0xa4b,0xa4d); (0xa51,0xa51);
    (0xa70,0xa71); (0xa75,0xa75); (0xa81,0xa82); (0xabc,0xabc); (0xac1,0xac5);
    (0xac7,0xac8); (0xacd,0xacd); (0xae2,0xae3); (0xafa,0xaff); (0xb01,0xb01);
    (0xb3c,0xb3c); (0xb3f,0xb3f); (0xb41,0xb44); (0xb4d,0xb4d); (0xb55,0xb56);
    (0xb62,0xb63); (0xb82,0xb82); (0xbc0,0xbc0); (0xbcd,0xbcd); (0xc00,0xc00);
    (0xc04,0xc04); (0xc3c,0xc3c); (0xc3e,0xc40); (0xc46,0xc48); (0xc4a,0xc4d);
    (0xc55,0xc56); (0xc62,0xc63); (0xc81,0xc81); (0xcbc,0xcbc); (0xcbf,0xcbf);
    (0xcc6,0xcc6); (0xccc,0xccd); (0xce2,0xce3); (0xd00,0xd01); (0xd3b,0xd3c);
    (0xd41,0xd44); (0xd4d,0xd4d); (0xd62,0xd63); (0xd81,0xd81); (0xdca,0xdca);
    (0xdd2,0xdd4); (0xdd6,0xdd6); (0xe31,0xe31); (0xe34,0xe3a); (0xe46,0xe4e);
    (0xeb1,0xeb1); (0xeb4,0xebc); (0xec6,0xec6); (0xec8,0xecd); (0xf18,0xf19);
    (0xf35,0xf35); (0xf37,0xf37); (0xf39,0xf39); (0xf71,0xf7e); (0xf80,0xf84);
    (0xf86,0xf87); (0xf8d,0xf97); (0xf99,0xfbc); (0xfc6,0xfc6);
    (0x102d,0x1030); (0x1032,0x1037); (0x1039,0x103a); (0x103d,0x103e);
    (0x1058,0x1059); (0x105e,0x1060); (0x1071,0x1074); (0x1082,0x1082);
    (0x1085,0x1086); (0x108d,0x108d); (0x109d,0x109d); (0x10fc,0x10fc);
    (0x135d,0x135f); (0x1712,0x1714); (0x1732,0x1733); (0x1752,0x1753);
    (0x1772,0x1773); (0x17b4,0x17b5); (0x17b7,0x17bd); (0x17c6,0x17c6);
    (0x17c9,0x17d3); (0x17d7,0x17d7); (0x17dd,0x17dd); (0x180b,0x180f);
    (0x1843,0x1843); (0x1885,0x1886); (0x18a9,0x18a9); (0x1920,0x1922);
    (0x1927,0x1928); (0x1932,0x1932); (0x1939,0x193b); (0x1a17,0x1a18);
    (0x1a1b,0x1a1b); (0x1a56,0x1a56); (0x1a58,0x1a5e); (0x1a60,0x1a60);
    (0x1a62,0x1a62); (0x1a65,0x1a6c); (0x1a73,0x1a7c); (0x1a7f,0x1a7f);
    (0x1aa7,0x1aa7); (0x1ab0,0x1ace); (0x1b00,0x1b03); (0x1b34,0x1b34);
    (0x1b36,0x1b3a); (0x1b3c,0x1b3c); (0x1b42,0x1b42); (0x1b6b,0x1b73);
    (0x1b80,0x1b81); (0x1ba2,0x1ba5); (0x1ba8,0x1ba9); (0x1bab,0x1bad);
    (0x1be6,0x1be6); (0x1be8,0x1be9); (0x1bed,0x1bed); (0x1bef,0x1bf1);
    (0x1c2c,0x1c33); (0x1c36,0x1c37); (0x1c78,0x1c7d); (0x1cd0,0x1cd2);
    (0x1cd4,0x1ce0); (0x1ce2,0x1ce8); (0x1ced,0x1ced); (0x1cf4,0x1cf4);
    (0x1cf8,0x1cf9); (0x1d2c,0x1d6a); (0x1d78,0x1d78); (0x1d9b,0x1dff);
    (0x1fbd,0x1fbd); (0x1fbf,0x1fc1); (0x1fcd,0x1fcf); (0x1fdd,0x1fdf);
    (0x1fed,0x1fef); (0x1ffd,0x1ffe); (0x200b,0x200f); (0x2018,0x2019);
    (0x2024,0x2024); (0x2027,0x2027); (0x202a,0x202e); (0x2060,0x2064);
    (0x2066,0x206f); (0x2071,0x2071); (0x207f,0x207f); (0x2090,0x209c);
    (0x20d0,0x20f0); (0x2c7c,0x2c7d); (0x2cef,0x2cf1); (0x2d6f,0x2d6f);
    (0x2d7f,0x2d7f); (0x2de0,0x2dff); (0x2e2f,0x2e2f); (0x3005,0x3005);
    (0x302a,0x302d); (0x3031,0x3035); (0x303b,0x303b); (0x3099,0x309e);
    (0x30fc,0x30fe); (0xa015,0xa015); (0xa4f8,0xa4fd); (0xa60c,0xa60c);
    (0xa66f,0xa672); (0xa674,0xa67d); (0xa67f,0xa67f); (0xa69c,0xa69f);
    (0xa6f0,0xa6f1); (0xa700,0xa721); (0xa770,0xa770); (0xa788,0xa78a);
    (0xa7f2,0xa7f4); (0xa7f8,0xa7f9); (0xa802,0xa802); (0xa806,0xa806);
    (0xa80b,0xa80b); (0xa825,0xa826); (0xa82c,0xa82c); (0xa8c4,0xa8c5);
    (0xa8e0,0xa8f1); (0xa8ff,0xa8ff); (0xa926,0xa92d); (0xa947,0xa951);
    (0xa980,0xa982); (0xa9b3,0xa9b3); (0xa9b6,0xa9b9); (0xa9bc,0xa9bd);
    (0xa9cf,0xa9cf); (0xa9e5,0xa9e6); (0xaa29,0xaa2e); (0xaa31,0xaa32);
    (0xaa35,0xaa36); (0xaa43,0xaa43); (0xaa4c,0xaa4c); (0xaa70,0xaa70);
    (0xaa7c,0xaa7c); (0xaab0,0xaab0); (0xaab2,0xaab4); (0xaab7,0xaab8);
    (0xaabe,0xaabf); (0xaac1,0xaac1); (0xaadd,0xaadd); (0xaaec,0xaaed);
    (0xaaf3,0xaaf4); (0xaaf6,0xaaf6); (0xab5b,0xab5f); (0xab69,0xab6b);
    (0xabe5,0xabe5); (0xabe8,0xabe8); (0xabed,0xabed); (0xfb1e,0xfb1e);
    (0xfbb2,0xfbc2); (0xfe00,0xfe0f); (0xfe13,0xfe13); (0xfe20,0xfe2f);
    (0xfe52,0xfe52); (0xfe55,0xfe55); (0xfeff,0xfeff); (0xff07,0xff07);
    (0xff0e,0xff0e); (0xff1a,0xff1a); (0xff3e,0xff3e); (0xff40,0xff40);
    (0xff70,0xff70); (0xff9e,0xff9f); (0xffe3,0xffe3); (0xfff9,0xfffb);
    (0x101fd,0x101fd); (0x102e0,0x102e0); (0x10376,0x1037a);
    (0x10780,0x10785); (0x10787,0x107b0); (0x107b2,0x107ba);
    (0x10a01,0x10a03); (0x10a05,0x10a06); (0x10a0c,0x10a0f);
    (0x10a38,0x10a3a); (0x10a3f,0x10a3f); (0x10ae5,0x10ae6);
    (0x10d24,0x10d27); (0x10eab,0x10eac); (0x10f46,0x10f50);
    (0x10f82,0x10f85); (0x11001,0x11001); (0x11038,0x11046);
    (0x11070,0x11070); (0x11073,0x11074); (0x1107f,0x11081);
    (0x110b3,0x110b6); (0x110b9,0x110ba); (0x110bd,0x110bd);
    (0x110c2,0x110c2); (0x110cd,0x110cd); (0x11100,0x11102);
    (0x11127,0x1112b); (0x1112d,0x11134); (0x11173,0x11173);
    (0x11180,0x11181); (0x111b6,0x111be); (0x111c9,0x111cc);
    (0x111cf,0x111cf); (0x1122f,0x11231); (0x11234,0x11234);
    (0x11236,0x11237); (0x1123e,0x1123e); (0x112df,0x112df);
    (0x112e3,0x112ea); (0x11300,0x11301); (0x1133b,0x1133c);
    (0x11340,0x11340); (0x11366,0x1136c); (0x11370,0x11374);
    (0x11438,0x1143f); (0x11442,0x11444); (0x11446,0x11446);
    (0x1145e,0x1145e); (0x114b3,0x114b8); (0x114ba,0x114ba);
    (0x114bf,0x114c0); (0x114c2,0x114c3); (0x115b2,0x115b5);
    (0x115bc,0x115bd); (0x115bf,0x115c0); (0x115dc,0x115dd);
    (0x11633,0x1163a); (0x1163d,0x1163d); (0x1163f,0x11640);
    (0x116ab,0x116ab); (0x116ad,0x116ad); (0x116b0,0x116b5);
    (0x116b7,0x116b7); (0x1171d,0x1171f); (0x11722,0x11725);
    (0x11727,0x1172b); (0x1182f,0x11837); (0x11839,0x1183a);
    (0x1193b,0x1193c); (0x1193e,0x1193e); (0x11943,0x11943);
    (0x119d4,0x119d7); (0x119da,0x119db); (0x119e0,0x119e0);
    (0x11a01,0x11a0a); (0x11a33,0x11a38); (0x11a3b,0x11a3e);
    (0x11a47,0x11a47); (0x11a51,0x11a56); (0x11a59,0x11a5b);
    (0x11a8a,0x11a96); (0x11a98,0x11a99); (0x11c30,0x11c36);
    (0x11c38,0x11c3d); (0x11c3f,0x11c3f); (0x11c92,0x11ca7);
    (0x11caa,0x11cb0); (0x11cb2,0x11cb3); (0x11cb5,0x11cb6);
    (0x11d31,0x11d36); (0x11d3a,0x11d3a); (0x11d3c,0x11d3d);
    (0x11d3f,0x11d45); (0x11d47,0x11d47); (0x11d90,0x11d91);
    (0x11d95,0x11d95); (0x11d97,0x11d97); (0x11ef3,0x11ef4);
    (0x13430,0x13438); (0x16af0,0x16af4); (0x16b30,0x16b36);
    (0x16b40,0x16b43); (0x16f4f,0x16f4f); (0x16f8f,0x16f9f);
    (0x16fe0,0x16fe1); (0x16fe3,0x16fe4); (0x1aff0,0x1aff3);
    (0x1aff5,0x1affb); (0x1affd,0x1affe); (0x1bc9d,0x1bc9e);
    (0x1bca0,0x1bca3); (0x1cf00,0x1cf2d); (0x1cf30,0x1cf46);
    (0x1d167,0x1d169); (0x1d173,0x1d182); (0x1d185,0x1d18b);
    (0x1d1aa,0x1d1ad); (0x1d242,0x1d244); (0x1da00,0x1da36);
    (0x1da3b,0x1da6c); (0x1da75,0x1da75); (0x1da84,0x1da84);
    (0x1da9b,0x1da9f); (0x1daa1,0x1daaf); (0x1e000,0x1e006);
    (0x1e008,0x1e018); (0x1e01b,0x1e021); (0x1e023,0x1e024);
    (0x1e026,0x1e02a); (0x1e130,0x1e13d); (0x1e2ae,0x1e2ae);
    (0x1e2ec,0x1e2ef); (0x1e8d0,0x1e8d6); (0x1e944,0x1e94b);
    (0x1f3fb,0x1f3ff); (0xe0001,0xe0001); (0xe0020,0xe007f); (0xe0100,0xe01ef)
  ].

(** The code points with the property Cased among those that are not
    Case_Ignorable; the property is only asked of such code points. *)
Definition cased_runs : list (N * N) :=
  [
    (0x41,0x5a); (0x61,0x7a); (0xaa,0xaa); (0xb5,0xb5); (0xba,0xba);
    (0xc0,0xd6); (0xd8,0xf6); (0xf8,0x1ba); (0x1bc,0x1bf); (0x1c4,0x293);
    (0x295,0x2af); (0x370,0x373); (0x376,0x377); (0x37b,0x37d); (0x37f,0x37f);
    (0x386,0x386); (0x388,0x38a); (0x38c,0x38c); (0x38e,0x3a1); (0x3a3,0x3f5);
    (0x3f7,0x481); (0x48a,0x52f); (0x531,0x556); (0x560,0x588);
    (0x10a0,0x10c5); (0x10c7,0x10c7); (0x10cd,0x10cd); (0x10d0,0x10fa);
    (0x10fd,0x10ff); (0x13a0,0x13f5); (0x13f8,0x13fd); (0x1c80,0x1c88);
    (0x1c90,0x1cba); (0x1cbd,0x1cbf); (0x1d00,0x1d2b); (0x1d6b,0x1d77);
    (0x1d79,0x1d9a); (0x1e00,0x1f15); (0x1f18,0x1f1d); (0x1f20,0x1f45);
    (0x1f48,0x1f4d); (0x1f50,0x1f57); (0x1f59,0x1f59); (0x1f5b,0x1f5b);
    (0x1f5d,0x1f5d); (0x1f5f,0x1f7d); (0x1f80,0x1fb4); (0x1fb6,0x1fbc);
    (0x1fbe,0x1fbe); (0x1fc2,0x1fc4); (0x1fc6,0x1fcc); (0x1fd0,0x1fd3);
    (0x1fd6,0x1fdb); (0x1fe0,0x1fec); (0x1ff2,0x1ff4); (0x1ff6,0x1ffc);
    (0x2102,0x2102); (0x2107,0x2107); (0x210a,0x2113); (0x2115,0x2115);
    (0x2119,0x211d); (0x2124,0x2124); (0x2126,0x2126); (0x2128,0x2128);
    (0x212a,0x212d); (0x212f,0x2134); (0x2139,0x2139); (0x213c,0x213f);
    (0x2145,0x2149); (0x214e,0x214e); (0x2160,0x217f); (0x2183,0x2184);
    (0x24b6,0x24e9); (0x2c00,0x2c7b); (0x2c7e,0x2ce4); (0x2ceb,0x2cee);
    (0x2cf2,0x2cf3); (0x2d00,0x2d25); (0x2d27,0x2d27); (0x2d2d,0x2d2d);
    (0xa640,0xa66d); (0xa680,0xa69b); (0xa722,0xa76f); (0xa771,0xa787);
    (0xa78b,0xa78e); (0xa790,0xa7ca); (0xa7d0,0xa7d1); (0xa7d3,0xa7d3);
    (0xa7d5,0xa7d9); (0xa7f5,0xa7f6); (0xa7fa,0xa7fa); (0xab30,0xab5a);
    (0xab60,0xab68); (0xab70,0xabbf); (0xfb00,0xfb06); (0xfb13,0xfb17);
    (0xff21,0xff3a); (0xff41,0xff5a); (0x10400,0x1044f); (0x104b0,0x104d3);
    (0x104d8,0x104fb); (0x10570,0x1057a); (0x1057c,0x1058a);
    (0x1058c,0x10592); (0x10594,0x10595); (0x10597,0x105a1);
    (0x105a3,0x105b1); (0x105b3,0x105b9); (0x105bb,0x105bc);
    (0x10c80,0x10cb2); (0x10cc0,0x10cf2); (0x118a0,0x118df);
    (0x16e40,0x16e7f); (0x1d400,0x1d454); (0x1d456,0x1d49c);
    (0x1d49e,0x1d49f); (0x1d4a2,0x1d4a2); (0x1d4a5,0x1d4a6);
    (0x1d4a9,0x1d4ac); (0x1d4ae,0x1d4b9); (0x1d4bb,0x1d4bb);
    (0x1d4bd,0x1d4c3); (0x1d4c5,0x1d505); (0x1d507,0x1d50a);
    (0x1d50d,0x1d514); (0x1d516,0x1d51c); (0x1d51e,0x1d539);
    (0x1d53b,0x1d53e); (0x1d540,0x1d544); (0x1d546,0x1d546);
    (0x1d54a,0x1d550); (0x1d552,0x1d6a5); (0x1d6a8,0x1d6c0);
    (0x1d6c2,0x1d6da); (0x1d6dc,0x1d6fa); (0x1d6fc,0x1d714);
    (0x1d716,0x1d734); (0x1d736,0x1d74e); (0x1d750,0x1d76e);
    (0x1d770,0x1d788); (0x1d78a,0x1d7a8); (0x1d7aa,0x1d7c2);
    (0x1d7c4,0x1d7cb); (0x1df00,0x1df09); (0x1df0b,0x1df1e);
    (0x1e900,0x1e943); (0x1f130,0x1f149); (0x1f150,0x1f169); (0x1f170,0x1f189)
  ].

Definition is_case_ignorable (c : N) : bool :=
  existsb (in_run c) case_ignorable_runs.

Definition is_cased (c : N) : bool :=
  existsb (in_run c) cased_runs.

Definition run_of (c : N) : option (N * N * N) :=
  find (fun r => in_run c (fst r)) to_lower_runs.

(** The full lower-case mapping of one code point: U+0130 is the one code
    point whose lower case is two code points. *)
Definition to_lower_full (c : N) : list N :=
  if c =? 0x130 then [0x69; 0x307]
  else match run_of c with
       | Some (lo, _, lo') => [lo' + (c - lo)]
       | None => [c]
       end.

Fixpoint skip_case_ignorable (s : list N) : list N :=
  match s with
  | [] => []
  | c :: s' => if is_case_ignorable c then skip_case_ignorable s' else s
  end.

(** A capital sigma is final when the nearest character before it that is
    not case-ignorable is cased, and the nearest such character after it,
    if there is one, is not. [before] is the text before the sigma, last
    character first. *)
Definition final_sigma (before after : list N) : bool :=
  match skip_case_ignorable before with
  | c :: _ => is_cased c
  | [] => false
  end
  && match skip_case_ignorable after with
     | c :: _ => negb (is_cased c)
     | [] => true
     end.

Definition handle_capital_sigma (before after : list N) : N :=
  if final_sigma before after then 0x3c2 else 0x3c3.

Fixpoint lower_from (before s : list N) : list N :=
  match s with
  | [] => []
  | c :: s' =>
      ((if c =? 0x3a3 then [handle_capital_sigma before s']
        else to_lower_full c)
       ++ lower_from (c :: before) s')%list
  end.

(** [s.lower()] *)
Definition lower (s : list N) : list N := lower_from [] s.

Fixpoint starts_with (old s : list N) : bool :=
  match old, s with
  | [], _ => true
  | _ :: _, [] => false
  | a :: old', c :: s' => (a =? c) && starts_with old' s'
  end.

Fixpoint intersperse (new s : list N) : list N :=
  match s with
  | [] => new
  | c :: s' => (new ++ c :: intersperse new s')%list
  end.

Fixpoint replace_from (old new : list N) (skip : nat) (s : list N) : list N :=
  match s with
  | [] => []
  | c :: s' =>
      match skip with
      | S k => replace_from old new k s'
      | O =>
          if starts_with old s
          then (new ++ replace_from old new (List.length old - 1) s')%list
          else c :: replace_from old new 0 s'
      end
  end.

(** [s.replace(old, new)] *)
Definition replace (old new s : list N) : list N :=
  match old with
  | [] => intersperse new s
  | _ => replace_from old new 0 s
  end.

(** The code points of a string of the validation model. *)
Definition code_points (s : string) : list N :=
  List.map N_of_ascii (list_ascii_of_string s).

(** A run is sound when the code points it produces are produced by no
    other rule: they lie in no run and are none of U+0130, the space and
    the hyphen. *)
Definition image_fixed (r : N * N * N) : bool :=
  let '(lo, hi, lo') := r in
  let hi' := lo' + (hi - lo) in
  (lo <=? hi)
  && negb (in_run 0x130 (lo', hi'))
  && negb (in_run 0x20 (lo', hi'))
  && negb (in_run 0x2d (lo', hi'))
  && forallb (fun r2 => (snd (fst r2) <? lo') || (hi' <? fst (fst r2)))
       to_lower_runs.

End PyUnicode.

(** The expression of [ConnectorStep.set_default_id] on a name over all
    code points: [name.replace(" ", "_").replace("-", "_").lower()]. *)
Definition default_id_unicode (name : list N) : list N :=
  PyUnicode.lower
    (PyUnicode.replace [0x2d%N] [0x5f%N]
       (PyUnicode.replace [0x20%N] [0x5f%N] name)).

(** What the two replacements do to one code point. *)
Definition underscore (c : N) : N :=
  if (c =? 0x20)%N || (c =? 0x2d)%N then 0x5f%N else c.

(** A character that lower-casing leaves alone. *)
Definition lowered (c : N) : Prop :=
  c <> 0x3a3%N /\ PyUnicode.to_lower_full c = [c].

(** A character that is neither the space nor the hyphen. *)
Definition no_separator (c : N) : Prop := c <> 0x20%N /\ c <> 0x2d%N.

(* ================================================================== *)
(** ** Python values and validation results *)
(* ================================================================== *)

#[local] Set Warnings "-register-all".
Inductive pyval : Type :=
| VNone
| VBool (b : bool)
| VInt (z : Z)
| VStr (s : string)
| VList (l : list pyval)
| VDict (d : list (string * pyval)).

Definition pydict : Type := list (string * pyval).

(** [d.get(k)]: the keys of a Python dict are unique, so the first entry
    is the entry. *)
Fixpoint dict_get {A : Type} (k : string) (d : list (string * A)) : option A :=
  match d with
  | [] => None
  | (k', v) :: d' => if String.eqb k k' then Some v else dict_get k d'
  end.

(** Python truth value of an [Optional[List[str]]]: [None] and the empty
    list are false. *)
Definition truthy {A : Type} (x : option (list A)) : bool :=
  match x with
  | None | Some [] => false
  | Some (_ :: _) => true
  end.

(** One step of an error location: a field name, a union tag, a dict key
    or a list index. *)
Inductive loc_item : Type :=
| LKey (k : string)
| LIdx (i : nat).

(** The kinds of error of the validators used by these models; a
    [ValueError] raised by a model validator keeps its message. *)
Inductive error_type : Type :=
| missing
| string_type
| literal_error (expected : string)
| list_type
| dict_type
| model_type (class_name : string)
| model_attributes_type
| union_tag_not_found (discriminator : string)
| union_tag_invalid (discriminator : string) (tag : pyval)
| value_error (msg : string).

Record ErrorDetails : Type := mkError {
  err_type : error_type;
  err_loc : list loc_item
}.

(** The outcome of validating a value: the validated value, or the errors
    collected over all fields (raised together as one [ValidationError]). *)
Inductive validated (A : Type) : Type :=
| Valid (a : A)
| Invalid (errors : list ErrorDetails).
Arguments Valid {A} a.
Arguments Invalid {A} errors.

Definition is_valid {A : Type} (v : validated A) : bool :=
  match v with Valid _ => true | Invalid _ => false end.

Definition errors_of {A : Type} (v : validated A) : list ErrorDetails :=
  match v with
  | Valid _ => []
  | Invalid errs => errs
  end.

Definition vmap {A B : Type} (f : A -> B) (x : validated A) : validated B :=
  match x with
  | Valid a => Valid (f a)
  | Invalid e => Invalid e
  end.

(** Fields are validated one after the other and the errors of all of them
    are kept, in field order. *)
Definition vap {A B : Type} (f : validated (A -> B)) (x : validated A)
  : validated B :=
  match f, x with
  | Valid g, Valid a => Valid (g a)
  | Valid _, Invalid e => Invalid e
  | Invalid e, Valid _ => Invalid e
  | Invalid e1, Invalid e2 => Invalid (e1 ++ e2)
  end.

Declare Scope validated_scope.
Delimit Scope validated_scope with validated.
Notation "f <$> x" := (vmap f x)
  (at level 61, left associativity) : validated_scope.
Notation "f <*> x" := (vap f x)
  (at level 61, left associativity) : validated_scope.
Open Scope validated_scope.

Definition fail {A : Type} (t : error_type) : validated A :=
  Invalid [mkError t []].

(** Errors found inside a field, an item or a union member are reported
    under its location. *)
Definition under (i : loc_item) (e : ErrorDetails) : ErrorDetails :=
  mkError (err_type e) (i :: err_loc e).

Definition at_loc {A : Type} (i : loc_item) (x : validated A) : validated A :=
  match x with
  | Valid a => Valid a
  | Invalid errs => Invalid (List.map (under i) errs)
  end.

(* ------------------------------------------------------------------ *)
(** *** Validators of the field types *)

Definition validator (A : Type) : Type := pyval -> validated A.

(** [str] *)
Definition v_str : validator string :=
  fun v => match v with VStr s => Valid s | _ => fail string_type end.

(** [Any] *)
Definition v_any : validator pyval := fun v => Valid v.

(** [Literal[expected]] *)
Definition v_literal (expected : string) : validator string :=
  fun v =>
    match v with
    | VStr s => if String.eqb s expected then Valid s
                else fail (literal_error expected)
    | _ => fail (literal_error expected)
    end.

(** [Optional[T]] *)
Definition v_optional {A : Type} (val : validator A) : validator (option A) :=
  fun v => match v with VNone => Valid None | _ => Some <$> val v end.

Fixpoint items_from {A : Type} (val : validator A) (i : nat) (l : list pyval)
  : validated (list A) :=
  match l with
  | [] => Valid []
  | x :: l' => cons <$> at_loc (LIdx i) (val x) <*> items_from val (S i) l'
  end.

(** [List[T]] *)
Definition v_list {A : Type} (val : validator A) : validator (list A) :=
  fun v => match v with VList l => items_from val 0 l | _ => fail list_type end.

Fixpoint entries {A : Type} (val : validator A) (d : pydict)
  : validated (list (string * A)) :=
  match d with
  | [] => Valid []
  | (k, x) :: d' =>
      cons <$> (pair k <$> at_loc (LKey k) (val x)) <*> entries val d'
  end.

(** [Dict[str, T]] *)
Definition v_dict {A : Type} (val : validator A)
  : validator (list (string * A)) :=
  fun v => match v with VDict d => entries val d | _ => fail dict_type end.

(** A field without default: [Field(...)] or a bare annotation. *)
Definition required {A : Type} (k : string) (val : validator A) (kwargs : pydict)
  : validated A :=
  match dict_get k kwargs with
  | None => Invalid [mkError missing [LKey k]]
  | Some v => at_loc (LKey k) (val v)
  end.

(** A field with a default ([default=], [default_factory=] or [= value]);
    the default is taken as it is. *)
Definition optional {A : Type} (k : string) (default : A) (val : validator A)
  (kwargs : pydict) : validated A :=
  match dict_get k kwargs with
  | None => Valid default
  | Some v => at_loc (LKey k) (val v)
  end.

(* ------------------------------------------------------------------ *)
(** *** [BaseModel] *)

(** What a [model_validator(mode="after")] does: return the instance or
    raise [ValueError]. *)
Inductive raised (A : Type) : Type :=
| Return (self : A)
| ValueError (msg : string).
Arguments Return {A} self.
Arguments ValueError {A} msg.

(** A model class: its name, the validation of its fields from the keyword
    arguments, and its after-validator (the identity when the class
    declares none). *)
Class BaseModel (T : Type) : Type := {
  class_name : string;
  validate_fields : pydict -> validated T;
  after_validator : T -> raised T
}.

(** Calling the class on keyword arguments: the fields are validated first; the after-validator
    runs only on an instance whose fields are all valid, and its
    [ValueError] becomes a validation error of the model. *)
Definition model_validate {T : Type} `{BaseModel T} (kwargs : pydict)
  : validated T :=
  match validate_fields kwargs with
  | Valid self =>
      match after_validator self with
      | Return self' => Valid self'
      | ValueError msg => fail (value_error msg)
      end
  | Invalid errs => Invalid errs
  end.

(** A field whose type is a model class: a dict is validated as the
    keyword arguments of the class. *)
Definition v_model {T : Type} `{M : BaseModel T} : validator T :=
  fun v =>
    match v with
    | VDict d => model_validate d
    | _ => fail (model_type (class_name (T := T)))
    end.

(* ================================================================== *)
(** ** connector_script.py: the action models *)
(* ================================================================== *)

Module RunSqlQueryAction.
Record t : Type := mk {
    action : string;
    query : string;
    parameters : pydict
  }.
#[global] Instance model : BaseModel t := {|
    class_name := "RunSqlQueryAction";
    validate_fields kw :=
      mk <$> required "action" (v_literal "run_sql_query") kw
         <*> required "query" v_str kw
         <*> optional "parameters" [] (v_dict v_any) kw;
    after_validator := Return
  |}.
End RunSqlQueryAction.

Module TestConnectionAction.
Record t : Type := mk {
    action : string
  }.
#[global] Instance model : BaseModel t := {|
    class_name := "TestConnectionAction";
    validate_fields kw :=
      mk <$> required "action" (v_literal "test_connection") kw;
    after_validator := Return
  |}.
End TestConnectionAction.

Module BrowsePathAction.
Record t : Type := mk {
    action : string;
    path : string
  }.
#[global] Instance model : BaseModel t := {|
    class_name := "BrowsePathAction";
    validate_fields kw :=
      mk <$> required "action" (v_literal "browse_path") kw
         <*> optional "path" "/" v_str kw;
    after_validator := Return
  |}.
End BrowsePathAction.

Module ReadContentAction.
Record t : Type := mk {
    action : string;
    path : string
  }.
#[global] Instance model : BaseModel t := {|
    class_name := "ReadContentAction";
    validate_fields kw :=
      mk <$> required "action" (v_literal "read_content") kw
         <*> required "path" v_str kw;
    after_validator := Return
  |}.
End ReadContentAction.

Module RunDeclarativeAction.
Record t : Type := mk {
    action : string;
    template_key : string;
    context : pydict
  }.
#[global] Instance model : BaseModel t := {|
    class_name := "RunDeclarativeAction";
    validate_fields kw :=
      mk <$> required "action" (v_literal "run_declarative_action") kw
         <*> required "template_key" v_str kw
         <*> optional "context" [] (v_dict v_any) kw;
    after_validator := Return
  |}.
End RunDeclarativeAction.

Module AggregateContentAction.
Record t : Type := mk {
    action : string;
    source_paths : option (list string);
    source_results : option (list string);
    target_path : string;
    header_template : option string;
    metadata : pydict
  }.

Definition source_error : string :=
    "At least one of 'source_paths' or 'source_results' must be provided.".

  (** [if not self.source_paths and not self.source_results: raise ...] *)
Definition check_at_least_one_source (self : t) : raised t :=
    if negb (truthy (source_paths self)) && negb (truthy (source_results self))
    then ValueError source_error
    else Return self.

#[global] Instance model : BaseModel t := {|
    class_name := "AggregateContentAction";
    validate_fields kw :=
      mk <$> required "action" (v_literal "aggregate_content") kw
         <*> optional "source_paths" None (v_optional (v_list v_str)) kw
         <*> optional "source_results" None (v_optional (v_list v_str)) kw
         <*> required "target_path" v_str kw
         <*> optional "header_template" None (v_optional v_str) kw
         <*> optional "metadata" [] (v_dict v_any) kw;
    after_validator := check_at_least_one_source
  |}.
End AggregateContentAction.

Module RunPythonScriptAction.
Record t : Type := mk {
    action : string;
    script_path : string;
    input_data_json : string
  }.
#[global] Instance model : BaseModel t := {|
    class_name := "RunPythonScriptAction";
    validate_fields kw :=
      mk <$> required "action" (v_literal "run_python_script") kw
         <*> required "script_path" v_str kw
         <*> optional "input_data_json" "{}" v_str kw;
    after_validator := Return
  |}.
End RunPythonScriptAction.

Module FileToWrite.
Record t : Type := mk {
    path : string;
    content : string
  }.
#[global] Instance model : BaseModel t := {|
    class_name := "FileToWrite";
    validate_fields kw :=
      mk <$> required "path" v_str kw
         <*> required "content" v_str kw;
    after_validator := Return
  |}.
End FileToWrite.

Module WriteFilesAction.
Record t : Type := mk {
    action : string;
    files : list FileToWrite.t
  }.
#[global] Instance model : BaseModel t := {|
    class_name := "WriteFilesAction";
    validate_fields kw :=
      mk <$> required "action" (v_literal "write_files") kw
         <*> required "files" (v_list v_model) kw;
    after_validator := Return
  |}.
End WriteFilesAction.

Module RunTransformAction.
Record t : Type := mk {
    action : string;
    script_path : string;
    input_data : pydict
  }.
#[global] Instance model : BaseModel t := {|
    class_name := "RunTransformAction";
    validate_fields kw :=
      mk <$> required "action" (v_literal "run_transform") kw
         <*> required "script_path" v_str kw
         <*> optional "input_data" [] (v_dict v_any) kw;
    after_validator := Return
  |}.
End RunTransformAction.

(** [AnyConnectorAction = Union[...]], the members in the order of the
    source. *)
Inductive AnyConnectorAction : Type :=
| OfTestConnection (a : TestConnectionAction.t)
| OfBrowsePath (a : BrowsePathAction.t)
| OfReadContent (a : ReadContentAction.t)
| OfRunSqlQuery (a : RunSqlQueryAction.t)
| OfRunDeclarative (a : RunDeclarativeAction.t)
| OfAggregateContent (a : AggregateContentAction.t)
| OfRunPythonScript (a : RunPythonScriptAction.t)
| OfWriteFiles (a : WriteFilesAction.t)
| OfRunTransform (a : RunTransformAction.t).

(** The [action] attribute of an action, whichever member it is. *)
Definition action_tag (a : AnyConnectorAction) : string :=
  match a with
  | OfTestConnection a => TestConnectionAction.action a
  | OfBrowsePath a => BrowsePathAction.action a
  | OfReadContent a => ReadContentAction.action a
  | OfRunSqlQuery a => RunSqlQueryAction.action a
  | OfRunDeclarative a => RunDeclarativeAction.action a
  | OfAggregateContent a => AggregateContentAction.action a
  | OfRunPythonScript a => RunPythonScriptAction.action a
  | OfWriteFiles a => WriteFilesAction.action a
  | OfRunTransform a => RunTransformAction.action a
  end.

(** The table a discriminated union builds from the [Literal] of the
    discriminator field of each member: tag to member validator. *)
Definition union_choices
  : list (string * (pydict -> validated AnyConnectorAction)) :=
  [ ("test_connection", fun d => OfTestConnection <$> model_validate d);
    ("browse_path", fun d => OfBrowsePath <$> model_validate d);
    ("read_content", fun d => OfReadContent <$> model_validate d);
    ("run_sql_query", fun d => OfRunSqlQuery <$> model_validate d);
    ("run_declarative_action", fun d => OfRunDeclarative <$> model_validate d);
    ("aggregate_content", fun d => OfAggregateContent <$> model_validate d);
    ("run_python_script", fun d => OfRunPythonScript <$> model_validate d);
    ("write_files", fun d => OfWriteFiles <$> model_validate d);
    ("run_transform", fun d => OfRunTransform <$> model_validate d) ].

Definition action_tags : list string := List.map fst union_choices.

(** [Field(..., discriminator="action")] over [AnyConnectorAction]: the
    tag is read from the input first and selects the one member that
    validates it; the errors of the member are reported under the tag. *)
Definition v_AnyConnectorAction : validator AnyConnectorAction :=
  fun v =>
    match v with
    | VDict d =>
        match dict_get "action" d with
        | None => fail (union_tag_not_found "action")
        | Some (VStr tag) =>
            match dict_get tag union_choices with
            | Some member => at_loc (LKey tag) (member d)
            | None => fail (union_tag_invalid "action" (VStr tag))
            end
        | Some tag => fail (union_tag_invalid "action" tag)
        end
    | _ => fail model_attributes_type
    end.

(* ================================================================== *)
(** ** connector_script.py: steps and scripts *)
(* ================================================================== *)

Module ConnectorStep.
  (** [id] is annotated [str]; the after-validator tests it against
      [None], so the attribute is an optional string here and field
      validation only ever stores [Some]. *)
Record t : Type := mk {
    id : option string;
    name : string;
    description : option string;
    connection_source : string;
    run : AnyConnectorAction;
    outputs : option (list (string * string));
    depends_on : option (list string);
    if_condition : option string;
    cache_config : option pydict
  }.

Definition set_id (self : t) (v : option string) : t :=
    mk v (name self) (description self) (connection_source self) (run self)
       (outputs self) (depends_on self) (if_condition self)
       (cache_config self).

  (** [if self.id is None: self.id = <derived from self.name>; return self] *)
Definition set_default_id (self : t) : raised t :=
    match id self with
    | None => Return (set_id self (Some (default_id (name self))))
    | Some _ => Return self
    end.

#[global] Instance model : BaseModel t := {|
    class_name := "ConnectorStep";
    validate_fields kw :=
      mk <$> (Some <$> required "id" v_str kw)
         <*> required "name" v_str kw
         <*> optional "description" None (v_optional v_str) kw
         <*> required "connection_source" v_str kw
         <*> required "run" v_AnyConnectorAction kw
         <*> optional "outputs" None (v_optional (v_dict v_str)) kw
         <*> optional "depends_on" None (v_optional (v_list v_str)) kw
         <*> optional "if" None (v_optional v_str) kw
         <*> optional "cache_config" None (v_optional (v_dict v_any)) kw;
    after_validator := set_default_id
  |}.
End ConnectorStep.

Module ConnectorScript.
Record t : Type := mk {
    name : string;
    description : option string;
    steps : list ConnectorStep.t;
    cache_config : option pydict;
    script_input : option pydict
  }.
#[global] Instance model : BaseModel t := {|
    class_name := "ConnectorScript";
    validate_fields kw :=
      mk <$> required "name" v_str kw
         <*> optional "description" None (v_optional v_str) kw
         <*> required "steps" (v_list v_model) kw
         <*> optional "cache_config" None (v_optional (v_dict v_any)) kw
         <*> optional "script_input" (Some []) (v_optional (v_dict v_any)) kw;
    after_validator := Return
  |}.
End ConnectorScript.

(* ================================================================== *)
(** ** Importing the modules of the package *)
(* ================================================================== *)

(** What a constructor call at top level can raise. *)
Inductive exn : Type :=
| ValidationError (errors : list ErrorDetails)
| ImportError (name module : string)
| ModuleNotFoundError (module : string).

Inductive outcome (A : Type) : Type :=
| Returns (a : A)
| Raises (e : exn).
Arguments Returns {A} a.
Arguments Raises {A} e.

(** The statements at the top level of a module that bind names. *)
Inductive stmt : Type :=
| ImportFrom (module : string) (names : list string)
| ClassDef (name : string)
| Assign (name : string).

(** The names bound in a module, in binding order. *)
Definition namespace : Type := list string.

Definition defines (ns : namespace) (name : string) : bool :=
  existsb (String.eqb name) ns.

(** Running a module body: [from m import a, b] imports [m] and then
    fetches the names one by one, the first that [m] does not have raises
    [ImportError]; a class definition or an assignment binds its name. *)
Fixpoint exec_body (import_module : string -> outcome namespace)
  (body : list stmt) (ns : namespace) : outcome namespace :=
  match body with
  | [] => Returns ns
  | ImportFrom m names :: body' =>
      match import_module m with
      | Returns exported =>
          match find (fun n => negb (defines exported n)) names with
          | Some n => Raises (ImportError n m)
          | None => exec_body import_module body' (ns ++ names)%list
          end
      | Raises e => Raises e
      end
  | ClassDef n :: body' => exec_body import_module body' (ns ++ [n])%list
  | Assign n :: body' => exec_body import_module body' (ns ++ [n])%list
  end.

(** The two libraries the package imports from, with the names it takes
    from them. *)
Definition libraries (m : string) : outcome namespace :=
  if String.eqb m "typing"
  then Returns ["Any"; "Dict"; "List"; "Literal"; "Optional"; "Union"]
  else if String.eqb m "pydantic"
  then Returns ["BaseModel"; "Field"; "model_validator"]
  else Raises (ModuleNotFoundError m).

(** connector_script.py, top level. *)
Definition connector_script_body : list stmt :=
  [ ImportFrom "typing"
      ["Any"; "Dict"; "List"; "Literal"; "Optional"; "Union"];
    ImportFrom "pydantic" ["BaseModel"; "Field"; "model_validator"];
    ClassDef "RunSqlQueryAction";
    ClassDef "TestConnectionAction";
    ClassDef "BrowsePathAction";
    ClassDef "ReadContentAction";
    ClassDef "RunDeclarativeAction";
    ClassDef "AggregateContentAction";
    ClassDef "RunPythonScriptAction";
    ClassDef "FileToWrite";
    ClassDef "WriteFilesAction";
    ClassDef "RunTransformAction";
    Assign "AnyConnectorAction";
    ClassDef "ConnectorStep";
    ClassDef "ConnectorScript" ].

Definition connector_script_module : outcome namespace :=
  exec_body libraries connector_script_body [].

(** Imports from inside the package: the relative name [.connector_script]
    is the sibling module. *)
Definition package_import (m : string) : outcome namespace :=
  if String.eqb m ".connector_script" then connector_script_module
  else libraries m.

(** notebook.py, top level (the [Block] class is commented out). *)
Definition notebook_body : list stmt :=
  [ ImportFrom "pydantic" ["BaseModel"; "Field"];
    ImportFrom "typing" ["Dict"; "List"; "Optional"];
    ImportFrom ".connector_script" ["ScriptInputParameter"; "ConnectorStep"];
    ClassDef "ContextualPage" ].

Definition notebook_module : outcome namespace :=
  exec_body package_import notebook_body [].

(* ================================================================== *)
(** ** notebook.py: [ContextualPage] *)
(* ================================================================== *)

Module ContextualPage.
Section WithScriptInputParameter.
  (** The class that notebook.py expects under the name
      [ScriptInputParameter]; no file of the package declares it, so it
      is any model class here. *)
Context {ScriptInputParameter : Type} `{BaseModel ScriptInputParameter}.

Record t : Type := mk {
    id : option string;
    name : string;
    description : option string;
    inputs : list (string * ScriptInputParameter);
    blocks : list ConnectorStep.t;
    version : string;
    author : option string;
    tags : list string
  }.

#[global] Instance model : BaseModel t := {|
    class_name := "ContextualPage";
    validate_fields kw :=
      mk <$> optional "id" None (v_optional v_str) kw
         <*> required "name" v_str kw
         <*> optional "description" None (v_optional v_str) kw
         <*> optional "inputs" [] (v_dict v_model) kw
         <*> required "blocks" (v_list v_model) kw
         <*> optional "version" "1.0.0" v_str kw
         <*> optional "author" None (v_optional v_str) kw
         <*> optional "tags" [] (v_list v_str) kw;
    after_validator := Return
  |}.

  (** [ContextualPage(...)] in a program: the class is reached through the
      import of the notebook module. *)
Definition construct (kwargs : pydict) : outcome t :=
    match notebook_module with
    | Raises e => Raises e
    | Returns _ =>
        match model_validate kwargs with
        | Valid page => Returns page
        | Invalid errs => Raises (ValidationError errs)
        end
    end.
End WithScriptInputParameter.
End ContextualPage.

(* ================================================================== *)
(** ** The parameter spec of the specification *)
(* ================================================================== *)

(** Modelled from the spec: the parameter spec of a script's input schema
    ("name -> parameter spec: type, required, default") is not declared in
    any file of the package; a value has that shape when it is a mapping
    with a type name, a required flag and a default value. *)
Definition is_parameter_spec (v : pyval) : bool :=
  match v with
  | VDict d =>
      match dict_get "type" d, dict_get "required" d, dict_get "default" d with
      | Some (VStr _), Some (VBool _), Some _ => true
      | _, _, _ => false
      end
  | _ => false
  end.

(* ================================================================== *)
(** ** Sample inputs *)
(* ================================================================== *)

Module Samples.

Definition test_connection : pyval :=
    VDict [("action", VStr "test_connection")].

  (** A step written without [id]. *)
Definition step_no_id : pydict :=
    [ ("name", VStr "Fetch Raw-Data");
      ("connection_source", VStr "user:my_db");
      ("run", test_connection) ].

Definition step_with_id (id name : string) : pydict :=
    [ ("id", VStr id);
      ("name", VStr name);
      ("connection_source", VStr "user:my_db");
      ("run", test_connection) ].

  (** A step written with [id=None]. *)
Definition step_id_none : pydict :=
    ("id", VNone) :: step_no_id.

  (** An instance whose [id] attribute holds [None]; no constructor call
      produces it. *)
Definition instance_without_id : ConnectorStep.t :=
    ConnectorStep.mk None "Fetch Raw-Data" None "user:my_db"
      (OfTestConnection (TestConnectionAction.mk "test_connection"))
      None None None None.

Definition instance_with_id (id name : string) : ConnectorStep.t :=
    ConnectorStep.mk (Some id) name None "user:my_db"
      (OfTestConnection (TestConnectionAction.mk "test_connection"))
      None None None None.

  (** A step whose action has no tag. *)
Definition step_no_tag : pydict :=
    [ ("id", VStr "s1");
      ("name", VStr "Send");
      ("connection_source", VStr "user:mail");
      ("run", VDict [("path", VStr "/")]) ].

  (** A step whose action tag is not declared. *)
Definition step_unknown_action : pydict :=
    [ ("id", VStr "s1");
      ("name", VStr "Send");
      ("connection_source", VStr "user:mail");
      ("run", VDict [("action", VStr "send_email")]) ].

  (** A script with an empty step id and the same id twice. *)
Definition script_bad_ids : pydict :=
    [ ("name", VStr "nightly");
      ("steps", VList [ VDict (step_with_id "" "Prepare");
                        VDict (step_with_id "fetch" "Fetch");
                        VDict (step_with_id "fetch" "Fetch again") ]) ].

  (** A script whose input mapping holds a plain number. *)
Definition script_plain_input : pydict :=
    [ ("name", VStr "nightly");
      ("steps", VList []);
      ("script_input", VDict [("limit", VInt 5)]) ].

Definition browse_default : pydict :=
    [ ("action", VStr "browse_path") ].

Definition aggregate_rest : pydict :=
    [ ("action", VStr "aggregate_content");
      ("target_path", VStr "out/all.md") ].

  (** [source_paths] given, as the empty list. *)
Definition aggregate_empty_paths : pydict :=
    ("source_paths", VList []) :: aggregate_rest.

Definition aggregate_one_path : pydict :=
    ("source_paths", VList [VStr "docs/"]) :: aggregate_rest.

End Samples.

(* ================================================================== *)
(** ** Reading a constructed instance back *)
(* ================================================================== *)

(** The [Literal] that the class of an action declares for its [action]
    field. *)
Definition literal_of (a : AnyConnectorAction) : string :=
  match a with
  | OfTestConnection _ => "test_connection"
  | OfBrowsePath _ => "browse_path"
  | OfReadContent _ => "read_content"
  | OfRunSqlQuery _ => "run_sql_query"
  | OfRunDeclarative _ => "run_declarative_action"
  | OfAggregateContent _ => "aggregate_content"
  | OfRunPythonScript _ => "run_python_script"
  | OfWriteFiles _ => "write_files"
  | OfRunTransform _ => "run_transform"
  end.

(** An optional attribute [a] is the argument [k] as given: [None] when
    the argument is left out or [None], the written value otherwise. *)
Definition given_as {A : Type} (k : string) (kw : pydict) (written : A -> pyval)
  (a : option A) : Prop :=
  match a with
  | None => dict_get k kw = None \/ dict_get k kw = Some VNone
  | Some x => dict_get k kw = Some (written x)
  end.

(** A list of strings and a mapping of strings, as Python values. *)
Definition str_list (l : list string) : pyval :=
  VList (List.map VStr l).

Definition str_dict (d : list (string * string)) : pyval :=
  VDict (List.map (fun p => (fst p, VStr (snd p))) d).

(* ================================================================== *)
(** * Properties *)
(* ================================================================== *)

(* ------------------------------------------------------------------ *)
(** ** The string functions *)

Example default_id_fetch : default_id "Fetch Raw-Data" = "fetch_raw_data".
Proof. reflexivity. Qed.

Example replace_overlap : PyStr.replace "aa" "b" "aaa" = "ba".
Proof. reflexivity. Qed.

Example replace_empty_old : PyStr.replace "" "-" "abc" = "-a-b-c-".
Proof. reflexivity. Qed.

(* ------------------------------------------------------------------ *)
(** *** Lemmas on the string functions *)

Lemma replace_char_map (a b : ascii) (s : string) :
  PyStr.replace (String a "") (String b "") s
  = PyStr.map (fun c => if Ascii.eqb c a then b else c) s.
Proof.
  unfold PyStr.replace.
  induction s as [|c s IH]; [reflexivity|].
  cbn [PyStr.replace_from PyStr.map prefix String.length Nat.sub].
  destruct (ascii_dec a c) as [->|Hne].
  - rewrite Ascii.eqb_refl. destruct s; cbn [append]; now rewrite <- IH.
  - destruct (Ascii.eqb_spec c a) as [->|_]; [contradiction|].
    now rewrite <- IH.
Qed.

Lemma map_map (f g : ascii -> ascii) (s : string) :
  PyStr.map g (PyStr.map f s) = PyStr.map (fun c => g (f c)) s.
Proof. induction s as [|c s IH]; cbn; [reflexivity|now rewrite IH]. Qed.

Lemma map_ext (f g : ascii -> ascii) (s : string) :
  (forall c, f c = g c) -> PyStr.map f s = PyStr.map g s.
Proof.
  intros E. induction s as [|c s IH]; cbn; [reflexivity|now rewrite IH, E].
Qed.

Lemma default_id_map (name : string) :
  default_id name = PyStr.map slug_char name.
Proof.
  unfold default_id, PyStr.lower.
  rewrite !replace_char_map, !map_map. reflexivity.
Qed.

(* ------------------------------------------------------------------ *)
(** ** Strings over all code points *)

(** U+0130 lower-cases to two code points. *)
Example default_id_dotted_capital_i :
  default_id_unicode [0x130; 0x73; 0x74; 0x61; 0x6e; 0x62; 0x75; 0x6c; 0x20; 0x52; 0x61; 0x77]%N
  = [0x69; 0x307; 0x73; 0x74; 0x61; 0x6e; 0x62; 0x75; 0x6c; 0x5f; 0x72; 0x61; 0x77]%N.
Proof. vm_compute. reflexivity. Qed.

(** A capital sigma at the end of a word becomes the final sigma. *)
Example default_id_final_sigma :
  default_id_unicode [0x391; 0x3a3; 0x20; 0x3a3; 0x391; 0x20; 0x3a3]%N
  = [0x3b1; 0x3c2; 0x5f; 0x3c3; 0x3b1; 0x5f; 0x3c3]%N.
Proof. vm_compute. reflexivity. Qed.

(** An apostrophe is case-ignorable, a hyphen is not. *)
Example default_id_sigma_after_apostrophe :
  default_id_unicode [0x391; 0x3a3; 0x27; 0x3a3; 0x2d; 0x3a3]%N
  = [0x3b1; 0x3c3; 0x27; 0x3c2; 0x5f; 0x3c3]%N.
Proof. vm_compute. reflexivity. Qed.

Section Unicode.
#[local] Open Scope N_scope.
Import PyUnicode.

Lemma in_run_iff (c lo hi : N) : in_run c (lo, hi) = true <-> lo <= c <= hi.
Proof. unfold in_run. cbn. rewrite andb_true_iff, !N.leb_le. tauto. Qed.

Lemma find_none_all {A : Type} (f : A -> bool) (l : list A) :
  (forall x, In x l -> f x = false) -> find f l = None.
Proof.
  induction l as [|x l IH]; cbn; [reflexivity|]. intros H.
  rewrite (H x) by now left. apply IH. intros y Hy. apply H. now right.
Qed.

Lemma runs_image_fixed : forallb image_fixed to_lower_runs = true.
Proof. vm_compute. reflexivity. Qed.

(** The three ways a code point is lower-cased. *)
Lemma to_lower_full_cases (c : N) :
  (c = 0x130 /\ to_lower_full c = [0x69; 0x307])
  \/ (c <> 0x130
      /\ exists lo hi lo',
          In (lo, hi, lo') to_lower_runs /\ lo <= c <= hi
          /\ to_lower_full c = [lo' + (c - lo)])
  \/ (c <> 0x130 /\ run_of c = None /\ to_lower_full c = [c]).
Proof.
  unfold to_lower_full. destruct (N.eqb_spec c 0x130) as [->|Hc]; [now left|].
  right. destruct (run_of c) as [[[lo hi] lo']|] eqn:Hrun.
  - left. split; [exact Hc|]. exists lo, hi, lo'.
    apply find_some in Hrun as (Hin & Hc'). cbn in Hc'.
    apply in_run_iff in Hc'. auto.
  - right. auto.
Qed.

(** A code point outside every run and other than U+0130 is its own
    lower case. *)
Lemma to_lower_full_outside (c : N) :
  c <> 0x130 ->
  (forall r, In r to_lower_runs -> in_run c (fst r) = false) ->
  to_lower_full c = [c].
Proof.
  intros Hc Hout. unfold to_lower_full, run_of.
  destruct (N.eqb_spec c 0x130); [contradiction|].
  now rewrite find_none_all.
Qed.

(** What lower-casing produces is its own lower case, is no capital
    sigma, and is a space or a hyphen only if it comes from one. *)
Lemma to_lower_full_image (c c' : N) :
  In c' (to_lower_full c) ->
  to_lower_full c' = [c']
  /\ c' <> 0x3a3
  /\ (c' = 0x20 -> c = 0x20) /\ (c' = 0x2d -> c = 0x2d).
Proof.
  intros Hin.
  assert (Hsigma : forall x, to_lower_full x = [x] -> x <> 0x3a3)
    by (intros x Hx ->; vm_compute in Hx; discriminate Hx).
  destruct (to_lower_full_cases c)
    as [(-> & E)|[(Hc & lo & hi & lo' & Hr & Hlo & E)|(Hc & _ & E)]];
    rewrite E in Hin; cbn in Hin.
  - destruct Hin as [<-|[<-|[]]];
      (split; [vm_compute; reflexivity|]);
      (split; [discriminate|split; discriminate]).
  - destruct Hin as [<-|[]].
    pose proof runs_image_fixed as Hall. rewrite forallb_forall in Hall.
    specialize (Hall _ Hr).
    cbv beta iota zeta delta [image_fixed] in Hall.
    rewrite !andb_true_iff, !negb_true_iff in Hall.
    destruct Hall as ((((Hle & H130) & H20) & H2d) & Hothers).
    apply N.leb_le in Hle.
    assert (Hrange : lo' <= lo' + (c - lo) <= lo' + (hi - lo)) by lia.
    assert (Hnot : forall x, in_run x (lo', lo' + (hi - lo)) = false ->
                             lo' + (c - lo) <> x).
    { intros x Hx Ex. rewrite Ex in Hrange.
      apply in_run_iff in Hrange. congruence. }
    assert (Hfix : to_lower_full (lo' + (c - lo)) = [lo' + (c - lo)]).
    { apply to_lower_full_outside; [now apply Hnot|].
      intros [[lo2 hi2] lo2'] Hr2. rewrite forallb_forall in Hothers.
      specialize (Hothers _ Hr2). cbn in Hothers |- *.
      apply orb_true_iff in Hothers. rewrite !N.ltb_lt in Hothers.
      apply not_true_is_false. intros Hc2%in_run_iff. lia. }
    split; [exact Hfix|]. split; [now apply Hsigma|].
    split; intros Hx;
      [destruct (Hnot _ H20 Hx)|destruct (Hnot _ H2d Hx)].
  - destruct Hin as [<-|[]].
    split; [exact E|]. split; [now apply Hsigma|]. auto.
Qed.

Lemma to_lower_full_length (c : N) :
  List.length (to_lower_full c) = if c =? 0x130 then 2%nat else 1%nat.
Proof.
  destruct (to_lower_full_cases c)
    as [(-> & E)|[(Hc & lo & hi & lo' & _ & _ & E)|(Hc & _ & E)]];
    rewrite E; [reflexivity| |];
    now destruct (N.eqb_spec c 0x130).
Qed.

Lemma lowered_sigma (before after : list N) :
  lowered (handle_capital_sigma before after)
  /\ no_separator (handle_capital_sigma before after).
Proof.
  unfold handle_capital_sigma.
  destruct (final_sigma before after);
    (split; split; [discriminate|vm_compute; reflexivity
                   |discriminate|discriminate]).
Qed.

Lemma lower_from_lowered (s : list N) :
  forall before, Forall lowered (lower_from before s).
Proof.
  induction s as [|c s IH]; intros before; cbn; [constructor|].
  apply Forall_app. split; [|apply IH].
  destruct (N.eqb_spec c 0x3a3) as [->|Hc].
  - constructor; [apply lowered_sigma|constructor].
  - apply Forall_forall. intros c' Hin.
    apply to_lower_full_image in Hin as (Hfix & Hs & _). now split.
Qed.

Lemma lower_from_fixed (s : list N) :
  Forall lowered s -> forall before, lower_from before s = s.
Proof.
  induction 1 as [|c s (Hc & Hfix) _ IH]; intros before; cbn; [reflexivity|].
  destruct (N.eqb_spec c 0x3a3); [contradiction|].
  now rewrite Hfix, IH.
Qed.

Lemma lower_idempotent (s : list N) : lower (lower s) = lower s.
Proof. apply lower_from_fixed, lower_from_lowered. Qed.

Lemma lower_from_no_separator (s : list N) :
  Forall no_separator s ->
  forall before, Forall no_separator (lower_from before s).
Proof.
  induction 1 as [|c s (H20 & H2d) _ IH]; intros before; cbn; [constructor|].
  apply Forall_app. split; [|apply IH].
  destruct (N.eqb_spec c 0x3a3) as [->|Hc].
  - constructor; [apply lowered_sigma|constructor].
  - apply Forall_forall. intros c' Hin.
    apply to_lower_full_image in Hin as (_ & _ & Hsp & Hhy).
    split; intros ->; auto.
Qed.

Lemma replace_one (a b : N) (s : list N) :
  replace [a] [b] s = List.map (fun c => if c =? a then b else c) s.
Proof.
  unfold replace. induction s as [|c s IH]; [reflexivity|].
  cbn [replace_from starts_with List.map List.length Nat.sub].
  rewrite (N.eqb_sym a c).
  destruct (c =? a); cbn; [destruct s|]; now rewrite <- IH.
Qed.

Lemma default_id_unicode_map (name : list N) :
  default_id_unicode name = lower (List.map underscore name).
Proof.
  unfold default_id_unicode. rewrite !replace_one, List.map_map.
  f_equal. apply List.map_ext. intros c. unfold underscore.
  destruct (N.eqb_spec c 0x20) as [->|]; [reflexivity|].
  now destruct (N.eqb_spec c 0x2d).
Qed.

Lemma underscore_no_separator (s : list N) :
  Forall no_separator (List.map underscore s).
Proof.
  apply Forall_forall. intros c (c0 & <- & _)%in_map_iff. unfold underscore.
  destruct (N.eqb_spec c0 0x20), (N.eqb_spec c0 0x2d); cbn;
    split; congruence.
Qed.

Lemma underscore_fixed (s : list N) :
  Forall no_separator s <-> List.map underscore s = s.
Proof.
  induction s as [|c s IH]; cbn; [split; [reflexivity|constructor]|].
  split.
  - intros H. inversion H as [|? ? (H20 & H2d) Hs]; subst.
    f_equal; [|now apply IH]. unfold underscore.
    now destruct (N.eqb_spec c 0x20), (N.eqb_spec c 0x2d).
  - intros [= Hc Hs]. constructor; [|now apply IH].
    unfold underscore in Hc.
    destruct (N.eqb_spec c 0x20), (N.eqb_spec c 0x2d); cbn in Hc;
      split; congruence.
Qed.

Lemma default_id_unicode_no_separator (name : list N) :
  Forall no_separator (default_id_unicode name).
Proof.
  rewrite default_id_unicode_map.
  apply lower_from_no_separator, underscore_no_separator.
Qed.

End Unicode.

(** C5. The default-identifier derivation (spaces and hyphens replaced by
    underscores, then lower-cased) is a function of the name alone, and
    applying it to its own output gives that output again, for every
    name: every string of code points, with the full lower-casing of
    Python, the two-character lower case of U+0130 and the final sigma
    included. *)
Theorem default_id_idempotent (name : list N) :
  default_id_unicode (default_id_unicode name) = default_id_unicode name.
Proof.
  rewrite (default_id_unicode_map (default_id_unicode name)).
  rewrite (proj1 (underscore_fixed _) (default_id_unicode_no_separator name)).
  rewrite default_id_unicode_map. apply lower_idempotent.
Qed.

(* ------------------------------------------------------------------ *)
(** ** Validation results *)

Section Validated.
Context {A B : Type}.

Lemma vmap_valid_inv (f : A -> B) (x : validated A) (b : B) :
  f <$> x = Valid b -> exists a, x = Valid a /\ b = f a.
Proof. destruct x; cbn; intros E; [injection E as <-; eauto|discriminate]. Qed.

Lemma vap_valid_inv (f : validated (A -> B)) (x : validated A) (b : B) :
  f <*> x = Valid b -> exists g a, f = Valid g /\ x = Valid a /\ b = g a.
Proof.
  destruct f, x; cbn; intros E; try discriminate.
  injection E as <-; eauto.
Qed.

Lemma at_loc_valid_inv (i : loc_item) (x : validated A) (a : A) :
  at_loc i x = Valid a -> x = Valid a.
Proof. destruct x; cbn; [trivial|discriminate]. Qed.

Lemma vap_invalid (e : list ErrorDetails) (x : validated A) :
  @Invalid (A -> B) e <*> x = Invalid (e ++ errors_of x).
Proof. destruct x; cbn; [now rewrite app_nil_r|reflexivity]. Qed.

Lemma is_valid_vmap (f : A -> B) (x : validated A) :
  is_valid (f <$> x) = is_valid x.
Proof. now destruct x. Qed.

Lemma is_valid_vap (f : validated (A -> B)) (x : validated A) :
  is_valid (f <*> x) = is_valid f && is_valid x.
Proof. now destruct f, x. Qed.

Lemma is_valid_at_loc (i : loc_item) (x : validated A) :
  is_valid (at_loc i x) = is_valid x.
Proof. now destruct x. Qed.

End Validated.

(** Peel a successful field-by-field validation into its fields. *)
Ltac valid_fields :=
  repeat match goal with
    | H : _ <*> _ = Valid _ |- _ =>
        let g := fresh "g" in
        let a := fresh "a" in
        let F := fresh "F" in
        apply vap_valid_inv in H; destruct H as (g & a & H & F & ->)
    | H : _ <$> _ = Valid _ |- _ =>
        let a := fresh "a" in
        let F := fresh "F" in
        apply vmap_valid_inv in H; destruct H as (a & F & ->)
    end.

Lemma model_validate_valid_inv {T : Type} `{BaseModel T} (kw : pydict) (x : T) :
  model_validate kw = Valid x ->
  exists self, validate_fields kw = Valid self /\ after_validator self = Return x.
Proof.
  unfold model_validate.
  destruct (validate_fields kw) as [self|]; [|discriminate].
  destruct (after_validator self) eqn:E; [|discriminate].
  intros [= <-]; eauto.
Qed.

Lemma required_valid_inv {A : Type} (k : string) (val : validator A)
  (kw : pydict) (a : A) :
  required k val kw = Valid a ->
  exists v, dict_get k kw = Some v /\ val v = Valid a.
Proof.
  unfold required. destruct (dict_get k kw) as [v|]; [|discriminate].
  intros E%at_loc_valid_inv; eauto.
Qed.

Lemma optional_valid_inv {A : Type} (k : string) (default : A)
  (val : validator A) (kw : pydict) (a : A) :
  optional k default val kw = Valid a ->
  (dict_get k kw = None /\ a = default)
  \/ exists v, dict_get k kw = Some v /\ val v = Valid a.
Proof.
  unfold optional. destruct (dict_get k kw) as [v|].
  - intros E%at_loc_valid_inv; eauto.
  - intros [= <-]; auto.
Qed.

Lemma required_skip {A : Type} (k k' : string) (v : pyval) (val : validator A)
  (kw : pydict) :
  String.eqb k k' = false ->
  required k val ((k', v) :: kw) = required k val kw.
Proof. intros E. unfold required. cbn. now rewrite E. Qed.

Lemma optional_skip {A : Type} (k k' : string) (v : pyval) (default : A)
  (val : validator A) (kw : pydict) :
  String.eqb k k' = false ->
  optional k default val ((k', v) :: kw) = optional k default val kw.
Proof. intros E. unfold optional. cbn. now rewrite E. Qed.

Lemma optional_here {A : Type} (k : string) (v : pyval) (default : A)
  (val : validator A) (kw : pydict) :
  optional k default val ((k, v) :: kw) = at_loc (LKey k) (val v).
Proof. unfold optional. cbn. now rewrite String.eqb_refl. Qed.

Lemma v_str_valid_inv (v : pyval) (s : string) :
  v_str v = Valid s -> v = VStr s.
Proof. destruct v; cbn; try discriminate. now intros [= ->]. Qed.

Lemma v_literal_valid_inv (expected : string) (v : pyval) (s : string) :
  v_literal expected v = Valid s -> v = VStr expected /\ s = expected.
Proof.
  destruct v as [| | |s'| |]; cbn; try discriminate.
  destruct (String.eqb_spec s' expected) as [->|]; [|discriminate].
  now intros [= <-].
Qed.

Lemma entries_any (d : pydict) : entries v_any d = Valid d.
Proof.
  induction d as [|[k v] d IH]; cbn; [reflexivity|now rewrite IH].
Qed.

(* ------------------------------------------------------------------ *)
(** ** [BrowsePathAction] *)

(** C7. A [BrowsePathAction] constructed without an explicit path has the
    path "/": every instance built from such arguments has it, and the
    arguments that give only the action tag do build one. *)
Theorem browse_path_default (kw : pydict) :
  dict_get "path" kw = None ->
  (forall a : BrowsePathAction.t,
      model_validate kw = Valid a -> BrowsePathAction.path a = "/")
  /\ (dict_get "action" kw = Some (VStr "browse_path") ->
      model_validate kw = Valid (BrowsePathAction.mk "browse_path" "/")).
Proof.
  intros Hpath. split.
  - intros a (self & Hf & Ha)%model_validate_valid_inv.
    cbn in Hf, Ha. injection Ha as <-.
    unfold optional in Hf. rewrite Hpath in Hf.
    valid_fields. injection F as <-. reflexivity.
  - intros Hact. unfold model_validate. cbn.
    unfold required, optional. rewrite Hpath, Hact. reflexivity.
Qed.

Lemma browse_path_default_witness :
  dict_get "path" Samples.browse_default = None
  /\ (model_validate Samples.browse_default
      = Valid (BrowsePathAction.mk "browse_path" "/")).
Proof.
  split; [reflexivity|].
  apply (browse_path_default Samples.browse_default); reflexivity.
Defined.

(* ------------------------------------------------------------------ *)
(** ** [ConnectorStep]: the identifier *)

(** Field validation of a step gives the [id] and [name] strings of the
    arguments, unchanged. *)
Lemma step_fields_id (kw : pydict) (self : ConnectorStep.t) :
  validate_fields kw = Valid self ->
  exists s, dict_get "id" kw = Some (VStr s) /\ ConnectorStep.id self = Some s.
Proof.
  cbn. intros Hf. valid_fields.
  match goal with
  | F : required "id" v_str kw = Valid _ |- _ =>
      apply required_valid_inv in F as (v & Hv & Hs)
  end.
  apply v_str_valid_inv in Hs as ->. eauto.
Qed.

Lemma step_missing_id (kw : pydict) :
  dict_get "id" kw = None ->
  exists errs,
    @model_validate ConnectorStep.t _ kw = Invalid errs
    /\ In (mkError missing [LKey "id"]) errs.
Proof.
  intros Hid. unfold model_validate. cbn.
  unfold required at 1. rewrite Hid. cbn [vmap].
  rewrite !vap_invalid. eexists; split; [reflexivity|].
  cbn. auto.
Qed.

Lemma step_none_id (kw : pydict) :
  dict_get "id" kw = Some VNone ->
  exists errs,
    @model_validate ConnectorStep.t _ kw = Invalid errs
    /\ In (mkError string_type [LKey "id"]) errs.
Proof.
  intros Hid. unfold model_validate. cbn.
  unfold required at 1. rewrite Hid. cbn [vmap v_str at_loc fail List.map under
    err_type err_loc].
  rewrite !vap_invalid. eexists; split; [reflexivity|].
  cbn. auto.
Qed.

Lemma step_valid_inv (kw : pydict) (step : ConnectorStep.t) :
  model_validate kw = Valid step ->
  validate_fields kw = Valid step
  /\ exists s, dict_get "id" kw = Some (VStr s)
               /\ ConnectorStep.id step = Some s.
Proof.
  intros (self & Hf & Ha)%model_validate_valid_inv.
  destruct (step_fields_id _ _ Hf) as (s & Hkw & Hid).
  cbn in Ha. unfold ConnectorStep.set_default_id in Ha.
  rewrite Hid in Ha. injection Ha as <-. eauto.
Qed.

(** C1, as stated, fails: a step written without [id] and otherwise
    complete is not constructed with the id derived from its name; the
    constructor raises, with the one error that [id] is missing. *)
Lemma step_without_id_not_derived :
  ~ (dict_get "id" Samples.step_no_id = None ->
     exists step : ConnectorStep.t,
       model_validate Samples.step_no_id = Valid step
       /\ ConnectorStep.id step = Some (default_id "Fetch Raw-Data")).
Proof.
  intros C. destruct (C eq_refl) as (step & Hv & _). discriminate Hv.
Qed.

(** C1, amended. A step constructed without an [id] value (the key left
    out, or [None]) is rejected with a validation error on [id]; a step
    that is constructed has the id string of its arguments, unchanged;
    and [set_default_id] gives an instance whose [id] is [None] the id
    derived from its name: spaces and hyphens replaced by underscores,
    then lower-cased. *)
Theorem step_id_required_or_kept (kw : pydict) :
  (dict_get "id" kw = None ->
   exists errs, @model_validate ConnectorStep.t _ kw = Invalid errs
                /\ In (mkError missing [LKey "id"]) errs)
  /\ (dict_get "id" kw = Some VNone ->
      exists errs, @model_validate ConnectorStep.t _ kw = Invalid errs
                   /\ In (mkError string_type [LKey "id"]) errs)
  /\ (forall step : ConnectorStep.t,
         model_validate kw = Valid step ->
         exists s, dict_get "id" kw = Some (VStr s)
                   /\ ConnectorStep.id step = Some s)
  /\ (forall self : ConnectorStep.t,
         ConnectorStep.id self = None ->
         exists step,
           ConnectorStep.set_default_id self = Return step
           /\ ConnectorStep.id step
              = Some (PyStr.lower
                        (PyStr.replace "-" "_"
                           (PyStr.replace " " "_" (ConnectorStep.name self))))).
Proof.
  repeat split.
  - apply step_missing_id.
  - apply step_none_id.
  - intros step Hv. now apply step_valid_inv in Hv.
  - intros self Hid. unfold ConnectorStep.set_default_id. rewrite Hid.
    eexists; split; reflexivity.
Qed.

Lemma step_id_required_or_kept_witness :
  (exists errs, @model_validate ConnectorStep.t _ Samples.step_no_id
                = Invalid errs
                /\ In (mkError missing [LKey "id"]) errs)
  /\ (exists errs, @model_validate ConnectorStep.t _ Samples.step_id_none
                   = Invalid errs
                   /\ In (mkError string_type [LKey "id"]) errs)
  /\ (exists s, dict_get "id" (Samples.step_with_id "fetch" "Fetch")
                = Some (VStr s)
                /\ Some "fetch" = Some s)
  /\ (exists step,
         ConnectorStep.set_default_id Samples.instance_without_id = Return step
         /\ ConnectorStep.id step = Some "fetch_raw_data").
Proof.
  split; [|split; [|split]].
  - apply (step_id_required_or_kept Samples.step_no_id). reflexivity.
  - apply (step_id_required_or_kept Samples.step_id_none). reflexivity.
  - refine (proj1 (proj2 (proj2
      (step_id_required_or_kept (Samples.step_with_id "fetch" "Fetch"))))
      (Samples.instance_with_id "fetch" "Fetch") _).
    reflexivity.
  - refine (proj2 (proj2 (proj2
      (step_id_required_or_kept Samples.step_no_id)))
      Samples.instance_without_id _).
    reflexivity.
Defined.

(** C8. Constructing a [ConnectorStep] without an [id] always fails, [id]
    being a required string; so every instance that reaches
    [set_default_id] has a string [id], and the validator returns it as
    it is: the branch under [self.id is None] is never taken. *)
Theorem default_id_branch_unreachable (kw : pydict) :
  (dict_get "id" kw = None ->
   is_valid (@model_validate ConnectorStep.t _ kw) = false)
  /\ (forall self : ConnectorStep.t,
         validate_fields kw = Valid self ->
         ConnectorStep.id self <> None
         /\ ConnectorStep.set_default_id self = Return self
         /\ model_validate kw = Valid self).
Proof.
  split.
  - intros Hid. destruct (step_missing_id kw Hid) as (errs & -> & _).
    reflexivity.
  - intros self Hf. destruct (step_fields_id _ _ Hf) as (s & _ & Hid).
    assert (Hs : ConnectorStep.set_default_id self = Return self)
      by (unfold ConnectorStep.set_default_id; now rewrite Hid).
    repeat split.
    + now rewrite Hid.
    + exact Hs.
    + unfold model_validate. rewrite Hf.
      change (after_validator self) with (ConnectorStep.set_default_id self).
      now rewrite Hs.
Qed.

Lemma default_id_branch_unreachable_witness :
  is_valid (@model_validate ConnectorStep.t _ Samples.step_no_id) = false
  /\ (let self := Samples.instance_with_id "fetch" "Fetch" in
      ConnectorStep.id self <> None
      /\ ConnectorStep.set_default_id self = Return self
      /\ model_validate (Samples.step_with_id "fetch" "Fetch") = Valid self).
Proof.
  split.
  - apply (default_id_branch_unreachable Samples.step_no_id). reflexivity.
  - apply (default_id_branch_unreachable (Samples.step_with_id "fetch" "Fetch")).
    reflexivity.
Defined.

(* ------------------------------------------------------------------ *)
(** ** [ConnectorStep]: the action union *)

Section Errors.
Context {A B : Type}.

Lemma errors_of_vap (f : validated (A -> B)) (x : validated A) :
  errors_of (f <*> x) = (errors_of f ++ errors_of x)%list.
Proof. destruct f, x; cbn; now rewrite ?app_nil_r. Qed.
End Errors.

(** A model whose fields do not validate raises exactly their errors. *)
Lemma model_validate_invalid {T : Type} `{BaseModel T} (kw : pydict) :
  is_valid (validate_fields kw) = false ->
  model_validate kw = Invalid (errors_of (validate_fields kw)).
Proof.
  unfold model_validate. now destruct (validate_fields kw).
Qed.

Lemma dict_get_none {A : Type} (k : string) (d : list (string * A)) :
  ~ In k (List.map fst d) -> dict_get k d = None.
Proof.
  induction d as [|[k' v] d IH]; cbn; [reflexivity|].
  intros Hn. destruct (String.eqb_spec k k') as [->|_].
  - exfalso; auto.
  - apply IH; auto.
Qed.

(** The member that validates an action stores the tag it was chosen
    by. *)
Ltac member_tag H :=
  apply at_loc_valid_inv, vmap_valid_inv in H;
  destruct H as (x & (self & Hf & Hx)%model_validate_valid_inv & ->);
  cbn in Hf, Hx;
  try unfold AggregateContentAction.check_at_least_one_source in Hx;
  try (destruct (_ && _) in Hx; [discriminate|]);
  injection Hx as <-;
  valid_fields;
  match goal with
  | F : required "action" (v_literal _) _ = Valid _ |- _ =>
      apply required_valid_inv in F as (v & _ & (_ & ->)%v_literal_valid_inv)
  end;
  cbn; auto 20.

Lemma action_valid_inv (v : pyval) (a : AnyConnectorAction) :
  v_AnyConnectorAction v = Valid a ->
  exists d, v = VDict d
            /\ dict_get "action" d = Some (VStr (action_tag a))
            /\ In (action_tag a) action_tags.
Proof.
  destruct v as [| | | | |d]; try discriminate.
  unfold v_AnyConnectorAction.
  destruct (dict_get "action" d) as [[| | |tag| |]|] eqn:Htag; try discriminate.
  intros H. exists d. split; [reflexivity|].
  unfold union_choices in H. cbn [dict_get] in H.
  repeat match type of H with
    | context [String.eqb tag ?lit] =>
        destruct (String.eqb_spec tag lit) as [->|_]; [member_tag H|]
    end.
  discriminate H.
Qed.

Lemma action_unknown_tag (d : pydict) (tag : pyval) :
  dict_get "action" d = Some tag ->
  (forall t, tag = VStr t -> ~ In t action_tags) ->
  v_AnyConnectorAction (VDict d) = fail (union_tag_invalid "action" tag).
Proof.
  intros Htag Hnot. unfold v_AnyConnectorAction. rewrite Htag.
  destruct tag as [| | |t| |]; try reflexivity.
  now rewrite (dict_get_none t union_choices (Hnot t eq_refl)).
Qed.

Lemma step_run_invalid (kw : pydict) (v : pyval) (e : ErrorDetails) :
  dict_get "run" kw = Some v ->
  v_AnyConnectorAction v = Invalid [e] ->
  exists errs, @model_validate ConnectorStep.t _ kw = Invalid errs
               /\ In (under (LKey "run") e) errs.
Proof.
  intros Hrun Hv.
  assert (Hr : required "run" v_AnyConnectorAction kw
               = Invalid [under (LKey "run") e])
    by (unfold required; rewrite Hrun, Hv; reflexivity).
  eexists. split.
  - apply model_validate_invalid. cbn.
    rewrite !is_valid_vap, Hr. cbn.
    now rewrite !andb_false_r.
  - cbn. rewrite !errors_of_vap, Hr, !in_app_iff. cbn. auto 10.
Qed.

(** C4. The action of a step is a closed tagged union. The declared tags
    are the nine of [AnyConnectorAction]; every step that is constructed
    carries an action whose tag is one of them, namely the tag written in
    its [run] argument; and a step whose [run] carries a tag outside the
    nine, or no tag, is rejected by the constructor with a validation
    error on [run]. *)
Theorem action_union_closed (kw : pydict) :
  action_tags
  = [ "test_connection"; "browse_path"; "read_content"; "run_sql_query";
      "run_declarative_action"; "aggregate_content"; "run_python_script";
      "write_files"; "run_transform" ]
  /\ (forall step : ConnectorStep.t,
         model_validate kw = Valid step ->
         In (action_tag (ConnectorStep.run step)) action_tags
         /\ exists d,
             dict_get "run" kw = Some (VDict d)
             /\ dict_get "action" d
                = Some (VStr (action_tag (ConnectorStep.run step))))
  /\ (forall d tag,
         dict_get "run" kw = Some (VDict d) ->
         dict_get "action" d = Some tag ->
         (forall t, tag = VStr t -> ~ In t action_tags) ->
         exists errs,
           @model_validate ConnectorStep.t _ kw = Invalid errs
           /\ In (mkError (union_tag_invalid "action" tag) [LKey "run"]) errs)
  /\ (forall d,
         dict_get "run" kw = Some (VDict d) ->
         dict_get "action" d = None ->
         exists errs,
           @model_validate ConnectorStep.t _ kw = Invalid errs
           /\ In (mkError (union_tag_not_found "action") [LKey "run"]) errs).
Proof.
  split; [reflexivity|]. split; [|split].
  - intros step (Hf & _)%step_valid_inv. cbn in Hf. valid_fields.
    match goal with
    | F : required "run" _ kw = Valid _ |- _ =>
        apply required_valid_inv in F
            as (v & Hrun & (d & -> & Htag & Hin)%action_valid_inv)
    end.
    cbn. eauto.
  - intros d tag Hrun Htag Hnot.
    apply (step_run_invalid kw (VDict d)
             (mkError (union_tag_invalid "action" tag) [])); [exact Hrun|].
    now apply action_unknown_tag.
  - intros d Hrun Htag.
    apply (step_run_invalid kw (VDict d)
             (mkError (union_tag_not_found "action") [])); [exact Hrun|].
    unfold v_AnyConnectorAction. now rewrite Htag.
Qed.

Lemma action_union_closed_witness :
  (In "test_connection" action_tags
   /\ exists d,
       dict_get "run" (Samples.step_with_id "s1" "Ping") = Some (VDict d)
       /\ dict_get "action" d = Some (VStr "test_connection"))
  /\ (exists errs,
         @model_validate ConnectorStep.t _ Samples.step_unknown_action
         = Invalid errs
         /\ In (mkError (union_tag_invalid "action" (VStr "send_email"))
                  [LKey "run"]) errs)
  /\ (exists errs,
         @model_validate ConnectorStep.t _ Samples.step_no_tag = Invalid errs
         /\ In (mkError (union_tag_not_found "action") [LKey "run"]) errs).
Proof.
  split; [|split].
  - refine (proj1 (proj2
      (action_union_closed (Samples.step_with_id "s1" "Ping")))
      (Samples.instance_with_id "s1" "Ping") _).
    reflexivity.
  - refine (proj1 (proj2 (proj2
      (action_union_closed Samples.step_unknown_action)))
      [("action", VStr "send_email")] (VStr "send_email") _ _ _).
    + reflexivity.
    + reflexivity.
    + intros t [= <-]. cbn. intros H.
      repeat (destruct H as [H|H]; [discriminate H|]). exact H.
  - refine (proj2 (proj2 (proj2
      (action_union_closed Samples.step_no_tag)))
      [("path", VStr "/")] _ _); reflexivity.
Defined.

(* ------------------------------------------------------------------ *)
(** ** [AggregateContentAction]: the source check *)

Lemma items_from_length {A : Type} (val : validator A) (l : list pyval) :
  forall (i : nat) (l' : list A),
    items_from val i l = Valid l' -> List.length l' = List.length l.
Proof.
  induction l as [|x l IH]; cbn; intros i l' H.
  - now injection H as <-.
  - valid_fields. cbn. f_equal. eauto.
Qed.

(** An [Optional[List[str]]] field with default [None] is true in the
    Python sense exactly when the argument is a non-empty list. *)
Lemma optional_list_truthy (k : string) (kw : pydict) (a : option (list string)) :
  optional k None (v_optional (v_list v_str)) kw = Valid a ->
  truthy a = true <-> exists x xs, dict_get k kw = Some (VList (x :: xs)).
Proof.
  intros [(Hk & ->)|(v & Hk & Hv)]%optional_valid_inv; rewrite Hk.
  - cbn. split; [discriminate|]. intros (x & xs & E); discriminate E.
  - destruct v as [| | | |l|]; cbn in Hv; try discriminate Hv.
    + injection Hv as <-. cbn. split; [discriminate|].
      intros (x & xs & E); discriminate E.
    + apply vmap_valid_inv in Hv as (l' & Hl & ->).
      apply items_from_length in Hl.
      destruct l as [|x xs], l' as [|y ys]; try discriminate Hl; cbn.
      * split; [discriminate|]. intros (x & xs & E); discriminate E.
      * split; [eauto|reflexivity].
Qed.

Lemma aggregate_fields_sources (kw : pydict) (self : AggregateContentAction.t) :
  validate_fields kw = Valid self ->
  optional "source_paths" None (v_optional (v_list v_str)) kw
  = Valid (AggregateContentAction.source_paths self)
  /\ optional "source_results" None (v_optional (v_list v_str)) kw
     = Valid (AggregateContentAction.source_results self).
Proof.
  cbn. intros Hf. valid_fields. cbn. auto.
Qed.

(** C2, as stated, fails: [source_paths] is provided, as the empty list,
    the fields validate, and the source check still raises. *)
Lemma aggregate_provided_empty_rejected :
  ~ (dict_get "source_paths" Samples.aggregate_empty_paths <> None
     \/ dict_get "source_results" Samples.aggregate_empty_paths <> None ->
     forall self : AggregateContentAction.t,
       validate_fields Samples.aggregate_empty_paths = Valid self ->
       AggregateContentAction.check_at_least_one_source self = Return self).
Proof.
  intros C.
  assert (P : dict_get "source_paths" Samples.aggregate_empty_paths <> None)
    by discriminate.
  specialize (C (or_introl P) _ eq_refl). discriminate C.
Qed.

(** C2, amended. Constructing an [AggregateContentAction] fails if both
    [source_paths] and [source_results] are absent; and for arguments
    whose fields validate, the source check passes (and the action is
    constructed) exactly when at least one of the two is given as a
    non-empty list. *)
Theorem aggregate_source_check (kw : pydict) :
  (dict_get "source_paths" kw = None ->
   dict_get "source_results" kw = None ->
   is_valid (@model_validate AggregateContentAction.t _ kw) = false)
  /\ (forall self : AggregateContentAction.t,
         validate_fields kw = Valid self ->
         (AggregateContentAction.check_at_least_one_source self = Return self
          /\ model_validate kw = Valid self)
         <-> ((exists p ps, dict_get "source_paths" kw = Some (VList (p :: ps)))
              \/ (exists r rs,
                     dict_get "source_results" kw = Some (VList (r :: rs))))).
Proof.
  assert (Hcheck : forall self : AggregateContentAction.t,
    validate_fields kw = Valid self ->
    AggregateContentAction.check_at_least_one_source self = Return self
    <-> ((exists p ps, dict_get "source_paths" kw = Some (VList (p :: ps)))
         \/ (exists r rs,
                dict_get "source_results" kw = Some (VList (r :: rs))))).
  { intros self Hf.
    destruct (aggregate_fields_sources kw self Hf) as (Hp & Hr).
    rewrite <- (optional_list_truthy _ _ _ Hp), <- (optional_list_truthy _ _ _ Hr).
    unfold AggregateContentAction.check_at_least_one_source.
    destruct (truthy (AggregateContentAction.source_paths self)),
             (truthy (AggregateContentAction.source_results self)); cbn;
      intuition discriminate. }
  split.
  - intros Hp Hr. unfold model_validate.
    destruct (validate_fields kw) as [self|] eqn:Hf; [|reflexivity].
    change (after_validator self)
      with (AggregateContentAction.check_at_least_one_source self).
    destruct (AggregateContentAction.check_at_least_one_source self) eqn:Hc;
      [|reflexivity].
    assert (Hs : self = self0).
    { unfold AggregateContentAction.check_at_least_one_source in Hc.
      destruct (_ && _) in Hc; [discriminate|now injection Hc]. }
    subst self0. apply (Hcheck self eq_refl) in Hc.
    rewrite Hp, Hr in Hc.
    destruct Hc as [(p & ps & E)|(r & rs & E)]; discriminate E.
  - intros self Hf. rewrite <- (Hcheck self Hf). split; [tauto|].
    intros Hc. split; [exact Hc|].
    unfold model_validate. rewrite Hf.
    change (after_validator self)
      with (AggregateContentAction.check_at_least_one_source self).
    now rewrite Hc.
Qed.

Lemma aggregate_source_check_witness :
  is_valid (@model_validate AggregateContentAction.t _ Samples.aggregate_rest)
  = false
  /\ (let self :=
        AggregateContentAction.mk "aggregate_content" (Some ["docs/"]) None
          "out/all.md" None [] in
      AggregateContentAction.check_at_least_one_source self = Return self
      /\ model_validate Samples.aggregate_one_path = Valid self).
Proof.
  split.
  - apply (aggregate_source_check Samples.aggregate_rest); reflexivity.
  - apply (aggregate_source_check Samples.aggregate_one_path);
      [reflexivity|].
    left. exists (VStr "docs/"), []. reflexivity.
Defined.

(** C9. The source check tests truth, not absence: with [source_paths=[]]
    and [source_results=[]] the constructor fails, and it raises the same
    validation error as for the same arguments with both left out; when
    the other fields validate, that error is the [ValueError] of the
    check. *)
Theorem aggregate_empty_like_absent (rest : pydict) :
  dict_get "source_paths" rest = None ->
  dict_get "source_results" rest = None ->
  let kw := ("source_paths", VList []) :: ("source_results", VList []) :: rest in
  is_valid (@model_validate AggregateContentAction.t _ kw) = false
  /\ @model_validate AggregateContentAction.t _ kw = model_validate rest
  /\ (is_valid (@validate_fields AggregateContentAction.t _ rest) = true ->
      @model_validate AggregateContentAction.t _ kw
      = fail (value_error AggregateContentAction.source_error)).
Proof.
  intros Hp Hr kw. subst kw.
  assert (Ep : optional "source_paths" None (v_optional (v_list v_str)) rest
               = Valid None) by (unfold optional; now rewrite Hp).
  assert (Er : optional "source_results" None (v_optional (v_list v_str)) rest
               = Valid None) by (unfold optional; now rewrite Hr).
  unfold model_validate.
  cbn [validate_fields after_validator AggregateContentAction.model].
  rewrite !(required_skip "action"), !(required_skip "target_path"),
    !(optional_skip "header_template"), !(optional_skip "metadata"),
    (optional_here "source_paths"), (optional_skip "source_results"),
    (optional_here "source_results"), Ep, Er by reflexivity.
  destruct (required "action" (v_literal "aggregate_content") rest),
           (required "target_path" v_str rest),
           (optional "header_template" None (v_optional v_str) rest),
           (optional "metadata" [] (v_dict v_any) rest);
    cbn; repeat split; try reflexivity; discriminate.
Qed.

Lemma aggregate_empty_like_absent_witness :
  let kw :=
    ("source_paths", VList []) :: ("source_results", VList [])
      :: Samples.aggregate_rest in
  is_valid (@model_validate AggregateContentAction.t _ kw) = false
  /\ @model_validate AggregateContentAction.t _ kw
     = model_validate Samples.aggregate_rest
  /\ @model_validate AggregateContentAction.t _ kw
     = fail (value_error AggregateContentAction.source_error).
Proof.
  destruct (aggregate_empty_like_absent Samples.aggregate_rest eq_refl eq_refl)
    as (H1 & H2 & H3).
  cbv zeta. split; [exact H1|]. split; [exact H2|]. apply H3. reflexivity.
Defined.

(* ------------------------------------------------------------------ *)
(** ** [ConnectorScript] *)

Lemma items_from_Forall2 {A : Type} (val : validator A) (l : list pyval) :
  forall (i : nat) (l' : list A),
    items_from val i l = Valid l' ->
    Forall2 (fun x a => val x = Valid a) l l'.
Proof.
  induction l as [|x l IH]; cbn; intros i l' H.
  - injection H as <-. constructor.
  - valid_fields. constructor; [now apply at_loc_valid_inv in F0|eauto].
Qed.

Lemma is_valid_items_from {A : Type} (val : validator A) (l : list pyval) :
  forall i : nat,
    is_valid (items_from val i l) = forallb (fun x => is_valid (val x)) l.
Proof.
  induction l as [|x l IH]; cbn; intros i; [reflexivity|].
  now rewrite is_valid_vap, is_valid_vmap, is_valid_at_loc, IH.
Qed.

Lemma is_valid_required_list {A : Type} (k : string) (val : validator A)
  (kw : pydict) :
  is_valid (required k (v_list val) kw)
  = match dict_get k kw with
    | Some (VList items) => forallb (fun item => is_valid (val item)) items
    | _ => false
    end.
Proof.
  unfold required. destruct (dict_get k kw) as [v|]; [|reflexivity].
  rewrite is_valid_at_loc.
  destruct v; try reflexivity. apply is_valid_items_from.
Qed.

Lemma is_valid_model_validate_plain {T : Type} `{BaseModel T} (kw : pydict) :
  (forall self : T, after_validator self = Return self) ->
  is_valid (model_validate kw) = is_valid (validate_fields kw).
Proof.
  intros Ha. unfold model_validate.
  destruct (validate_fields kw) as [self|]; [|reflexivity].
  now rewrite Ha.
Qed.

(** C3, as stated, fails: a script whose first step has the empty id and
    whose other two steps share the id "fetch" is constructed, with these
    ids. *)
Lemma script_bad_ids_constructed :
  exists script : ConnectorScript.t,
    model_validate Samples.script_bad_ids = Valid script
    /\ List.map ConnectorStep.id (ConnectorScript.steps script)
       = [Some ""; Some "fetch"; Some "fetch"]
    /\ ~ NoDup (List.map ConnectorStep.id (ConnectorScript.steps script)).
Proof.
  eexists. split; [reflexivity|]. split; [reflexivity|].
  cbn. intros N. inversion N as [|? ? _ N']; subst.
  inversion N' as [|? ? Hin _]; subst. apply Hin. now left.
Qed.

(** C3, amended. In every [ConnectorScript] that is constructed, each
    step's identifier is the string given as that step's [id], unchanged
    and in order; the constructor makes no check across steps or on the
    content of an id: a script is accepted exactly when its own fields
    validate and each item of [steps] validates as a step on its own. *)
Theorem script_step_ids_as_given (kw : pydict) :
  (forall script : ConnectorScript.t,
      model_validate kw = Valid script ->
      exists items,
        dict_get "steps" kw = Some (VList items)
        /\ Forall2
             (fun item step =>
                exists d s,
                  item = VDict d
                  /\ dict_get "id" d = Some (VStr s)
                  /\ ConnectorStep.id step = Some s)
             items (ConnectorScript.steps script))
  /\ is_valid (@model_validate ConnectorScript.t _ kw)
     = is_valid (required "name" v_str kw)
       && is_valid (optional "description" None (v_optional v_str) kw)
       && match dict_get "steps" kw with
          | Some (VList items) =>
              forallb
                (fun item => is_valid (@v_model ConnectorStep.t _ item)) items
          | _ => false
          end
       && is_valid (optional "cache_config" None (v_optional (v_dict v_any)) kw)
       && is_valid (optional "script_input" (Some [])
                      (v_optional (v_dict v_any)) kw).
Proof.
  split.
  - intros script (self & Hf & Ha)%model_validate_valid_inv.
    cbn in Ha. injection Ha as <-. cbn in Hf. valid_fields.
    match goal with
    | F : required "steps" _ kw = Valid _ |- _ =>
        apply required_valid_inv in F as (v & Hsteps & Hv)
    end.
    destruct v as [| | | |items|]; try discriminate Hv.
    exists items. split; [exact Hsteps|]. cbn.
    apply items_from_Forall2 in Hv.
    eapply Forall2_impl; [|exact Hv].
    intros item step Hitem.
    destruct item as [| | | | |d]; try discriminate Hitem.
    apply step_valid_inv in Hitem as (_ & s & Hid & Hs). eauto.
  - rewrite is_valid_model_validate_plain by reflexivity.
    cbn [validate_fields ConnectorScript.model].
    now rewrite !is_valid_vap, is_valid_vmap, is_valid_required_list.
Qed.

Lemma script_step_ids_as_given_witness :
  exists items,
    dict_get "steps" Samples.script_bad_ids = Some (VList items)
    /\ Forall2
         (fun item step =>
            exists d s,
              item = VDict d
              /\ dict_get "id" d = Some (VStr s)
              /\ ConnectorStep.id step = Some s)
         items
         (List.map
            (fun p =>
               ConnectorStep.mk (Some (fst p)) (snd p) None "user:my_db"
                 (OfTestConnection (TestConnectionAction.mk "test_connection"))
                 None None None None)
            [("", "Prepare"); ("fetch", "Fetch"); ("fetch", "Fetch again")]).
Proof.
  refine (proj1 (script_step_ids_as_given Samples.script_bad_ids)
            (ConnectorScript.mk "nightly" None _ None (Some [])) _).
  reflexivity.
Defined.

(** C6, as stated, fails: a script is constructed whose [script_input]
    maps a name to the number 5, which is no parameter spec. *)
Lemma script_input_not_parameter_specs :
  exists script : ConnectorScript.t,
    model_validate Samples.script_plain_input = Valid script
    /\ ConnectorScript.script_input script = Some [("limit", VInt 5)]
    /\ is_parameter_spec (VInt 5) = false.
Proof. eexists. repeat split. Qed.

(** C6, amended. Every [ConnectorScript] carries an optional
    [script_input]: the empty mapping when the argument is left out,
    [None] when it is [None], and otherwise the given mapping from names
    to arbitrary values, kept as it is; no shape is required of the
    values. *)
Theorem script_input_any_mapping (kw : pydict) (script : ConnectorScript.t) :
  model_validate kw = Valid script ->
  (dict_get "script_input" kw = None
   /\ ConnectorScript.script_input script = Some [])
  \/ (dict_get "script_input" kw = Some VNone
      /\ ConnectorScript.script_input script = None)
  \/ (exists d,
         dict_get "script_input" kw = Some (VDict d)
         /\ ConnectorScript.script_input script = Some d).
Proof.
  intros (self & Hf & Ha)%model_validate_valid_inv.
  cbn in Ha. injection Ha as <-. cbn in Hf. valid_fields. cbn.
  match goal with
  | F : optional "script_input" _ _ kw = Valid _ |- _ =>
      apply optional_valid_inv in F as [(Hk & ->)|(v & Hk & Hv)]
  end.
  - auto.
  - right. destruct v as [| | | | |d]; try discriminate Hv.
    + injection Hv as <-. auto.
    + cbn in Hv. rewrite entries_any in Hv. injection Hv as <-. eauto.
Qed.

Lemma script_input_any_mapping_witness :
  (dict_get "script_input" Samples.script_plain_input = None
   /\ Some [("limit", VInt 5)] = Some [])
  \/ (dict_get "script_input" Samples.script_plain_input = Some VNone
      /\ Some [("limit", VInt 5)] = None)
  \/ (exists d,
         dict_get "script_input" Samples.script_plain_input = Some (VDict d)
         /\ Some [("limit", VInt 5)] = Some d).
Proof.
  apply (script_input_any_mapping Samples.script_plain_input
           (ConnectorScript.mk "nightly" None [] None
              (Some [("limit", VInt 5)]))).
  reflexivity.
Defined.

(* ------------------------------------------------------------------ *)
(** ** The notebook module *)

(** C10. notebook.py imports [ScriptInputParameter] from
    connector_script; that module loads and binds no such name, so the
    import of the notebook module raises [ImportError], and so does every
    construction of a [ContextualPage], whatever the arguments. *)
Theorem notebook_import_fails :
  (exists ns,
      connector_script_module = Returns ns
      /\ defines ns "ConnectorStep" = true
      /\ defines ns "ScriptInputParameter" = false)
  /\ notebook_module
     = Raises (ImportError "ScriptInputParameter" ".connector_script")
  /\ (forall (P : Type) (M : BaseModel P) (kwargs : pydict),
         @ContextualPage.construct P M kwargs
         = Raises (ImportError "ScriptInputParameter" ".connector_script")).
Proof.
  split; [eexists; repeat split|].
  split; [reflexivity|]. intros P M kwargs. reflexivity.
Qed.


(* ================================================================== *)
(** * Further properties *)
(* ================================================================== *)

(* ------------------------------------------------------------------ *)
(** ** The derived identifier *)

Section DerivedIdentifier.
#[local] Open Scope N_scope.
Import PyUnicode.

Lemma lower_from_length (s : list N) :
  forall before,
    List.length (lower_from before s)
    = (List.length s + count_occ N.eq_dec s 0x130%N)%nat.
Proof.
  induction s as [|c s IH]; intros before; [reflexivity|].
  cbn [lower_from count_occ List.length]. rewrite length_app, IH.
  destruct (N.eqb_spec c 0x3a3) as [->|Hc].
  - destruct (N.eq_dec 0x3a3 0x130); [discriminate|]. cbn. lia.
  - rewrite to_lower_full_length.
    destruct (N.eqb_spec c 0x130), (N.eq_dec c 0x130); try congruence; lia.
Qed.

Lemma underscore_count (s : list N) :
  count_occ N.eq_dec (List.map underscore s) 0x130
  = count_occ N.eq_dec s 0x130.
Proof.
  induction s as [|c s IH]; [reflexivity|]. cbn. rewrite IH.
  unfold underscore.
  destruct (N.eqb_spec c 0x20) as [->|]; [reflexivity|].
  destruct (N.eqb_spec c 0x2d) as [->|]; reflexivity.
Qed.

(** X1. The derived identifier is one character longer than the name for
    each U+0130 in the name, and as long as the name when there is none;
    it holds no space, no hyphen, no capital sigma and no character that
    lower-casing would change. *)
Theorem default_id_shape (name : list N) :
  List.length (default_id_unicode name)
  = (List.length name + count_occ N.eq_dec name 0x130%N)%nat
  /\ forall c, In c (default_id_unicode name) ->
               c <> 0x20 /\ c <> 0x2d /\ c <> 0x3a3 /\ to_lower_full c = [c].
Proof.
  split.
  - rewrite default_id_unicode_map. unfold lower.
    now rewrite lower_from_length, length_map, underscore_count.
  - intros c Hin.
    pose proof (default_id_unicode_no_separator name) as Hsep.
    rewrite Forall_forall in Hsep. destruct (Hsep c Hin) as (H20 & H2d).
    rewrite default_id_unicode_map in Hin.
    pose proof (lower_from_lowered (List.map underscore name) []) as Hlow.
    rewrite Forall_forall in Hlow. destruct (Hlow c Hin) as (Hs & Hfix).
    auto.
Qed.

Lemma default_id_shape_witness :
  0x5f <> 0x20 /\ 0x5f <> 0x2d /\ 0x5f <> 0x3a3 /\ to_lower_full 0x5f = [0x5f].
Proof.
  apply (proj2 (default_id_shape [0x130; 0x20; 0x41]) 0x5f).
  vm_compute. auto.
Defined.

Lemma underscore_sigma (c : N) : (underscore c =? 0x3a3) = (c =? 0x3a3).
Proof.
  unfold underscore.
  destruct (N.eqb_spec c 0x20) as [->|]; [reflexivity|].
  now destruct (N.eqb_spec c 0x2d) as [->|].
Qed.

Lemma underscore_class (c : N) :
  is_case_ignorable (underscore c) = is_case_ignorable c
  /\ is_cased (underscore c) = is_cased c.
Proof.
  unfold underscore.
  destruct (N.eqb_spec c 0x20) as [->|]; [vm_compute; auto|].
  destruct (N.eqb_spec c 0x2d) as [->|]; [vm_compute; auto|].
  auto.
Qed.

Lemma underscore_skip (s : list N) :
  skip_case_ignorable (List.map underscore s)
  = List.map underscore (skip_case_ignorable s).
Proof.
  induction s as [|c s IH]; [reflexivity|].
  cbn [List.map skip_case_ignorable].
  rewrite (proj1 (underscore_class c)).
  now destruct (is_case_ignorable c).
Qed.

Lemma underscore_final_sigma (before after : list N) :
  final_sigma (List.map underscore before) (List.map underscore after)
  = final_sigma before after.
Proof.
  unfold final_sigma. rewrite !underscore_skip.
  destruct (skip_case_ignorable before) as [|b ?],
           (skip_case_ignorable after) as [|a ?];
    cbn [List.map]; rewrite ?(proj2 (underscore_class _)); reflexivity.
Qed.

Lemma underscore_to_lower_full (c : N) :
  to_lower_full (underscore c) = List.map underscore (to_lower_full c).
Proof.
  unfold underscore at 1.
  destruct (N.eqb_spec c 0x20) as [->|H20]; [vm_compute; reflexivity|].
  destruct (N.eqb_spec c 0x2d) as [->|H2d]; [vm_compute; reflexivity|].
  cbn [orb]. symmetry. apply underscore_fixed.
  apply Forall_forall. intros c' Hin.
  apply to_lower_full_image in Hin as (_ & _ & Hsp & Hhy).
  split; intros ->; auto.
Qed.

(** Replacing the separators and lower-casing can be done in either
    order. *)
Lemma underscore_lower_from (s : list N) :
  forall before,
    List.map underscore (lower_from before s)
    = lower_from (List.map underscore before) (List.map underscore s).
Proof.
  induction s as [|c s IH]; intros before; [reflexivity|].
  cbn [lower_from List.map]. rewrite List.map_app, IH, underscore_sigma.
  f_equal.
  destruct (N.eqb_spec c 0x3a3) as [->|Hc].
  - unfold handle_capital_sigma. rewrite underscore_final_sigma.
    now destruct (final_sigma before s).
  - symmetry. apply underscore_to_lower_full.
Qed.

(** X2. The derivation does not tell apart names that differ in a space,
    a hyphen or an underscore at some place: they get the same
    identifier. Lower-casing a name first does not change its identifier
    either. *)
Theorem default_id_collisions (s t : list N) :
  default_id_unicode (s ++ [0x20] ++ t) = default_id_unicode (s ++ [0x5f] ++ t)
  /\ default_id_unicode (s ++ [0x2d] ++ t)
     = default_id_unicode (s ++ [0x5f] ++ t)
  /\ default_id_unicode (lower s) = default_id_unicode s.
Proof.
  rewrite !default_id_unicode_map, !List.map_app.
  split; [reflexivity|]. split; [reflexivity|].
  unfold lower at 2. rewrite underscore_lower_from.
  apply lower_idempotent.
Qed.

(** X3. The names that the derivation leaves as they are, are exactly
    those without space and hyphen that lower-casing leaves as they
    are. *)
Theorem default_id_fixed_points (name : list N) :
  default_id_unicode name = name
  <-> lower name = name /\ ~ In 0x20 name /\ ~ In 0x2d name.
Proof.
  assert (Hsep : Forall no_separator name
                 <-> ~ In 0x20 name /\ ~ In 0x2d name).
  { rewrite Forall_forall. unfold no_separator. split.
    - intros H. split; intros Hin; apply H in Hin; tauto.
    - intros (H20 & H2d) c Hin. split; intros ->; contradiction. }
  split.
  - intros Hfix.
    assert (Hno : Forall no_separator name)
      by (rewrite <- Hfix; apply default_id_unicode_no_separator).
    split; [|now apply Hsep].
    rewrite default_id_unicode_map in Hfix.
    now rewrite (proj1 (underscore_fixed name) Hno) in Hfix.
  - intros (Hlow & Hno%Hsep).
    rewrite default_id_unicode_map.
    now rewrite (proj1 (underscore_fixed name) Hno).
Qed.

(** On the strings of the validation model, whose code points are below
    256, the derivation [default_id] is the derivation on all code
    points. *)
Lemma slug_char_code_point (a : ascii) :
  (underscore (N_of_ascii a) =? 0x3a3) = false
  /\ to_lower_full (underscore (N_of_ascii a)) = [N_of_ascii (slug_char a)].
Proof.
  destruct a as [[] [] [] [] [] [] [] []]; vm_compute; split; reflexivity.
Qed.

Lemma default_id_agrees (name : string) :
  code_points (default_id name) = default_id_unicode (code_points name).
Proof.
  rewrite default_id_map, default_id_unicode_map. unfold lower, code_points.
  generalize (@nil N).
  induction name as [|a name IH]; intros before; [reflexivity|].
  cbn [PyStr.map list_ascii_of_string List.map lower_from].
  destruct (slug_char_code_point a) as (-> & ->).
  cbn [app]. f_equal. apply IH.
Qed.

End DerivedIdentifier.

(* ------------------------------------------------------------------ *)
(** ** Arguments read back from a constructed step *)

Lemma errors_of_at_loc {A : Type} (i : loc_item) (x : validated A) :
  errors_of (at_loc i x) = List.map (under i) (errors_of x).
Proof. now destruct x. Qed.

Lemma items_str_inv (l : list pyval) :
  forall (i : nat) (l' : list string),
    items_from v_str i l = Valid l' -> l = List.map VStr l'.
Proof.
  induction l as [|x l IH]; cbn; intros i l' H.
  - now injection H as <-.
  - valid_fields.
    match goal with
    | F : at_loc _ (v_str x) = Valid _ |- _ =>
        apply at_loc_valid_inv, v_str_valid_inv in F as ->
    end.
    cbn. f_equal. eauto.
Qed.

Lemma entries_str_inv (d : pydict) (d' : list (string * string)) :
  entries v_str d = Valid d' ->
  d = List.map (fun p => (fst p, VStr (snd p))) d'.
Proof.
  revert d'. induction d as [|[k x] d IH]; cbn; intros d' H.
  - now injection H as <-.
  - valid_fields.
    match goal with
    | F : at_loc _ (v_str x) = Valid _ |- _ =>
        apply at_loc_valid_inv, v_str_valid_inv in F as ->
    end.
    cbn. f_equal. eauto.
Qed.

Lemma v_str_list_inv (v : pyval) (l : list string) :
  v_list v_str v = Valid l -> v = str_list l.
Proof.
  destruct v; try discriminate. cbn. intros H%items_str_inv. now subst.
Qed.

Lemma v_str_dict_inv (v : pyval) (d : list (string * string)) :
  v_dict v_str v = Valid d -> v = str_dict d.
Proof.
  destruct v; try discriminate. cbn. intros H%entries_str_inv. now subst.
Qed.

Lemma v_any_dict_inv (v : pyval) (d : pydict) :
  v_dict v_any v = Valid d -> v = VDict d.
Proof.
  destruct v; try discriminate. cbn. rewrite entries_any. now intros [= ->].
Qed.

(** An optional field with default [None] stores the argument as it is
    given, whenever its validator only accepts what it returns. *)
Lemma optional_given {A : Type} (k : string) (val : validator A)
  (written : A -> pyval) (kw : pydict) (a : option A) :
  (forall v x, val v = Valid x -> v = written x) ->
  optional k None (v_optional val) kw = Valid a ->
  given_as k kw written a.
Proof.
  intros Hval [(Hk & ->)|(v & Hk & Hv)]%optional_valid_inv; cbn; [auto|].
  unfold v_optional in Hv.
  destruct v; try (injection Hv as <-; cbn; auto);
    apply vmap_valid_inv in Hv as (x & Hx & ->); cbn;
    now rewrite Hk, (Hval _ _ Hx).
Qed.

Lemma required_str_given (k : string) (kw : pydict) (s : string) :
  required k v_str kw = Valid s -> dict_get k kw = Some (VStr s).
Proof. now intros (v & -> & ->%v_str_valid_inv)%required_valid_inv. Qed.

(** X4. The constructor of a step ignores every argument that is not one
    of its nine: such an argument changes nothing in what the constructor
    returns or raises. The guard is one of the nine under the name [if]
    only, so an argument named [if_condition] is ignored as well. *)
Theorem step_ignores_other_arguments (kw : pydict) :
  (forall (k : string) (v : pyval),
      ~ In k [ "id"; "name"; "description"; "connection_source"; "run";
               "outputs"; "depends_on"; "if"; "cache_config" ] ->
      @model_validate ConnectorStep.t _ ((k, v) :: kw) = model_validate kw)
  /\ (forall v : pyval,
         @model_validate ConnectorStep.t _ (("if_condition", v) :: kw)
         = model_validate kw).
Proof.
  assert (Hother : forall (k : string) (v : pyval),
    ~ In k [ "id"; "name"; "description"; "connection_source"; "run";
             "outputs"; "depends_on"; "if"; "cache_config" ] ->
    @model_validate ConnectorStep.t _ ((k, v) :: kw) = model_validate kw).
  { intros k v Hk.
    assert (Hne : forall f,
               In f [ "id"; "name"; "description"; "connection_source"; "run";
                      "outputs"; "depends_on"; "if"; "cache_config" ] ->
               String.eqb f k = false).
    { intros f Hf. destruct (String.eqb_spec f k) as [->|]; [contradiction|].
      reflexivity. }
    unfold model_validate. cbn [validate_fields ConnectorStep.model].
    rewrite !required_skip, !optional_skip by (apply Hne; cbn; auto 12).
    reflexivity. }
  split; [exact Hother|].
  intros v. apply Hother. cbn. intros H.
  repeat (destruct H as [H|H]; [discriminate H|]). exact H.
Qed.

Lemma step_ignores_other_arguments_witness :
  @model_validate ConnectorStep.t _
    (("timeout", VInt 30) :: Samples.step_with_id "t" "T")
  = model_validate (Samples.step_with_id "t" "T").
Proof.
  apply (step_ignores_other_arguments (Samples.step_with_id "t" "T")).
  cbn. intros H.
  repeat (destruct H as [H|H]; [discriminate H|]). exact H.
Defined.

Lemma required_iff {A : Type} (k : string) (val : validator A) (kw : pydict)
  (a : A) :
  required k val kw = Valid a
  <-> exists v, dict_get k kw = Some v /\ val v = Valid a.
Proof.
  split; [apply required_valid_inv|].
  intros (v & Hk & Hv). unfold required. now rewrite Hk, Hv.
Qed.

Lemma required_str_written (k : string) (kw : pydict) (s : string) :
  dict_get k kw = Some (VStr s) -> required k v_str kw = Valid s.
Proof. intros H. unfold required. now rewrite H. Qed.

Lemma items_str_written (l : list string) :
  forall i : nat, items_from v_str i (List.map VStr l) = Valid l.
Proof.
  induction l as [|s l IH]; intros i; cbn; [reflexivity|now rewrite IH].
Qed.

Lemma entries_str_written (d : list (string * string)) :
  entries v_str (List.map (fun p => (fst p, VStr (snd p))) d) = Valid d.
Proof.
  induction d as [|[k s] d IH]; cbn; [reflexivity|now rewrite IH].
Qed.

Lemma v_str_iff (v : pyval) (s : string) : v_str v = Valid s <-> v = VStr s.
Proof. split; [apply v_str_valid_inv|now intros ->]. Qed.

Lemma v_str_list_iff (v : pyval) (l : list string) :
  v_list v_str v = Valid l <-> v = str_list l.
Proof.
  split; [apply v_str_list_inv|intros ->; apply items_str_written].
Qed.

Lemma v_str_dict_iff (v : pyval) (d : list (string * string)) :
  v_dict v_str v = Valid d <-> v = str_dict d.
Proof.
  split; [apply v_str_dict_inv|intros ->; apply entries_str_written].
Qed.

Lemma v_any_dict_iff (v : pyval) (d : pydict) :
  v_dict v_any v = Valid d <-> v = VDict d.
Proof.
  split; [apply v_any_dict_inv|intros ->; apply entries_any].
Qed.

(** The converse of [optional_given], for a validator that accepts what
    it writes. *)
Lemma optional_given_iff {A : Type} (k : string) (val : validator A)
  (written : A -> pyval) (kw : pydict) (a : option A) :
  (forall v x, val v = Valid x <-> v = written x) ->
  (forall x, written x <> VNone) ->
  optional k None (v_optional val) kw = Valid a <-> given_as k kw written a.
Proof.
  intros Hval Hnone. split.
  - apply optional_given. intros v x. apply Hval.
  - unfold given_as, optional.
    destruct a as [x|]; [intros ->|intros [->| ->]]; try reflexivity.
    cbn. unfold v_optional.
    assert (Hx : val (written x) = Valid x) by now apply Hval.
    specialize (Hnone x).
    destruct (written x); try contradiction; now rewrite Hx.
Qed.

(** X5. The constructor of a step, in full. A step is constructed exactly
    from arguments with strings [id], [name] and [connection_source], a
    [run] that the action union validates, and, each left out, [None] or
    given: a string [description], a mapping of strings [outputs], a list
    of strings [depends_on], a string [if] and a mapping [cache_config];
    the step stores every one of them as given, in the given order. *)
Theorem step_accepts (kw : pydict) (step : ConnectorStep.t) :
  model_validate kw = Valid step
  <-> (exists s, dict_get "id" kw = Some (VStr s)
                 /\ ConnectorStep.id step = Some s)
      /\ dict_get "name" kw = Some (VStr (ConnectorStep.name step))
      /\ given_as "description" kw VStr (ConnectorStep.description step)
      /\ dict_get "connection_source" kw
         = Some (VStr (ConnectorStep.connection_source step))
      /\ (exists v, dict_get "run" kw = Some v
                    /\ v_AnyConnectorAction v = Valid (ConnectorStep.run step))
      /\ given_as "outputs" kw str_dict (ConnectorStep.outputs step)
      /\ given_as "depends_on" kw str_list (ConnectorStep.depends_on step)
      /\ given_as "if" kw VStr (ConnectorStep.if_condition step)
      /\ given_as "cache_config" kw VDict (ConnectorStep.cache_config step).
Proof.
  assert (Hstr : forall k (s : option string),
             optional k None (v_optional v_str) kw = Valid s
             <-> given_as k kw VStr s).
  { intros k s. apply optional_given_iff; [apply v_str_iff|discriminate]. }
  assert (Hlist : forall k (l : option (list string)),
             optional k None (v_optional (v_list v_str)) kw = Valid l
             <-> given_as k kw str_list l).
  { intros k l. apply optional_given_iff; [apply v_str_list_iff|discriminate]. }
  assert (Hsdict : forall k (d : option (list (string * string))),
             optional k None (v_optional (v_dict v_str)) kw = Valid d
             <-> given_as k kw str_dict d).
  { intros k d. apply optional_given_iff; [apply v_str_dict_iff|discriminate]. }
  assert (Hdict : forall k (d : option pydict),
             optional k None (v_optional (v_dict v_any)) kw = Valid d
             <-> given_as k kw VDict d).
  { intros k d. apply optional_given_iff; [apply v_any_dict_iff|discriminate]. }
  split.
  - intros (Hf & Hid)%step_valid_inv. cbn in Hf. valid_fields. cbn in *.
    repeat match goal with
      | F : required _ v_str kw = Valid _ |- _ => apply required_str_given in F
      | F : required "run" _ kw = Valid _ |- _ => apply required_iff in F
      | F : optional _ None (v_optional v_str) kw = Valid _ |- _ =>
          apply Hstr in F
      | F : optional _ None (v_optional (v_list v_str)) kw = Valid _ |- _ =>
          apply Hlist in F
      | F : optional _ None (v_optional (v_dict v_str)) kw = Valid _ |- _ =>
          apply Hsdict in F
      | F : optional _ None (v_optional (v_dict v_any)) kw = Valid _ |- _ =>
          apply Hdict in F
      end.
    repeat split; assumption.
  - destruct step as [i n de cs r o dp ic cc]; cbn.
    intros ((s & Hs%required_str_written & ->) & Hn%required_str_written
            & Hde%Hstr & Hcs%required_str_written & Hr%required_iff
            & Ho%Hsdict & Hdp%Hlist & Hic%Hstr & Hcc%Hdict).
    unfold model_validate.
    cbn [validate_fields after_validator ConnectorStep.model].
    now rewrite Hs, Hn, Hde, Hcs, Hr, Ho, Hdp, Hic, Hcc.
Qed.

(** X6. The constructor of a step reports every required argument that is
    missing, not only the first: each of [id], [name],
    [connection_source] and [run] that is left out has its own [missing]
    error in the raised list. *)
Theorem step_reports_each_missing (kw : pydict) (k : string) :
  In k ["id"; "name"; "connection_source"; "run"] ->
  dict_get k kw = None ->
  exists errs,
    @model_validate ConnectorStep.t _ kw = Invalid errs
    /\ In (mkError missing [LKey k]) errs.
Proof.
  intros Hk Hmiss.
  assert (Hreq : forall A (val : validator A),
             required k val kw = Invalid [mkError missing [LKey k]])
    by (intros A val; unfold required; now rewrite Hmiss).
  eexists. split.
  - apply model_validate_invalid. cbn [validate_fields ConnectorStep.model].
    rewrite !is_valid_vap, !is_valid_vmap.
    cbn in Hk. destruct Hk as [<-|[<-|[<-|[<-|[]]]]];
      rewrite Hreq; cbn; now rewrite ?andb_false_r.
  - cbn [validate_fields ConnectorStep.model].
    rewrite !errors_of_vap, !in_app_iff.
    cbn in Hk. destruct Hk as [<-|[<-|[<-|[<-|[]]]]];
      rewrite Hreq; cbn; auto 12.
Qed.

Lemma step_reports_each_missing_witness :
  exists errs,
    @model_validate ConnectorStep.t _ [("id", VStr "s1")] = Invalid errs
    /\ In (mkError missing [LKey "connection_source"]) errs.
Proof.
  apply (step_reports_each_missing [("id", VStr "s1")] "connection_source").
  - cbn. auto.
  - reflexivity.
Defined.

(* ------------------------------------------------------------------ *)
(** ** The members of the action union *)

Lemma dict_get_In {A : Type} (k : string) (d : list (string * A)) (x : A) :
  dict_get k d = Some x -> In (k, x) d.
Proof.
  induction d as [|[k' v] d IH]; cbn; [discriminate|].
  destruct (String.eqb_spec k k') as [->|_].
  - intros [= ->]. now left.
  - intros H. right. auto.
Qed.

(** From the success of one member of the union to its own tag. *)
Ltac member_own_tag H :=
  apply vmap_valid_inv in H;
  destruct H as (x & (self & Hf & Hx)%model_validate_valid_inv & ->);
  cbn in Hf, Hx;
  try unfold AggregateContentAction.check_at_least_one_source in Hx;
  try (destruct (_ && _) in Hx; [discriminate|]);
  injection Hx as <-;
  valid_fields;
  match goal with
  | F : required "action" (v_literal _) _ = Valid _ |- _ =>
      apply required_valid_inv in F as (v & Hv & (-> & ->)%v_literal_valid_inv)
  end;
  cbn; auto.

Lemma member_valid_inv (tag : string)
  (member : pydict -> validated AnyConnectorAction) (d : pydict)
  (a : AnyConnectorAction) :
  In (tag, member) union_choices ->
  member d = Valid a ->
  dict_get "action" d = Some (VStr tag)
  /\ action_tag a = tag /\ literal_of a = tag.
Proof.
  unfold union_choices. cbn [In]. intros Hin H.
  repeat (destruct Hin as [[= <- <-]|Hin]; [member_own_tag H|]).
  destruct Hin.
Qed.

(** X7. Each class of the union builds an action only from arguments that
    carry its own tag, and the action it builds stores that tag: the
    variant of a constructed action and its [action] attribute always
    agree. *)
Theorem member_accepts_own_tag (tag : string)
  (member : pydict -> validated AnyConnectorAction) (d : pydict)
  (a : AnyConnectorAction) :
  In (tag, member) union_choices ->
  member d = Valid a ->
  dict_get "action" d = Some (VStr tag)
  /\ action_tag a = tag /\ literal_of a = tag.
Proof. apply member_valid_inv. Qed.

Lemma member_accepts_own_tag_witness :
  dict_get "action" [("action", VStr "read_content"); ("path", VStr "/a")]
  = Some (VStr "read_content")
  /\ action_tag (OfReadContent (ReadContentAction.mk "read_content" "/a"))
     = "read_content"
  /\ literal_of (OfReadContent (ReadContentAction.mk "read_content" "/a"))
     = "read_content".
Proof.
  apply (member_accepts_own_tag "read_content"
           (fun d => OfReadContent <$> model_validate d)
           [("action", VStr "read_content"); ("path", VStr "/a")]).
  - cbn. auto.
  - reflexivity.
Defined.

Lemma step_run_invalid_all (kw : pydict) (v : pyval) (errs : list ErrorDetails) :
  dict_get "run" kw = Some v ->
  v_AnyConnectorAction v = Invalid errs ->
  exists errs', @model_validate ConnectorStep.t _ kw = Invalid errs'
                /\ forall e, In e errs -> In (under (LKey "run") e) errs'.
Proof.
  intros Hrun Hv.
  assert (Hr : required "run" v_AnyConnectorAction kw
               = Invalid (List.map (under (LKey "run")) errs))
    by (unfold required; rewrite Hrun, Hv; reflexivity).
  eexists. split.
  - apply model_validate_invalid. cbn.
    rewrite !is_valid_vap, Hr. cbn.
    now rewrite !andb_false_r.
  - intros e He. cbn. rewrite !errors_of_vap, Hr, !in_app_iff. cbn.
    left. left. left. left. right. now apply in_map.
Qed.

(** X8. The action of a step is what the class named by the tag of [run]
    makes of the [run] argument: when the step is constructed, its action
    is the one that class builds; when that class rejects the argument,
    the step is rejected and every error of the class is reported under
    [run] and the tag. *)
Theorem step_action_by_tag (kw d : pydict) (tag : string)
  (member : pydict -> validated AnyConnectorAction) :
  dict_get "run" kw = Some (VDict d) ->
  dict_get "action" d = Some (VStr tag) ->
  dict_get tag union_choices = Some member ->
  (forall step : ConnectorStep.t,
      model_validate kw = Valid step ->
      member d = Valid (ConnectorStep.run step)
      /\ literal_of (ConnectorStep.run step) = tag)
  /\ (forall errs,
         member d = Invalid errs ->
         exists errs',
           @model_validate ConnectorStep.t _ kw = Invalid errs'
           /\ forall e, In e errs ->
                        In (under (LKey "run") (under (LKey tag) e)) errs').
Proof.
  intros Hrun Htag Hmember. split.
  - intros step (Hf & _)%step_valid_inv. cbn in Hf. valid_fields. cbn.
    match goal with
    | F : required "run" _ kw = Valid _ |- _ =>
        apply required_valid_inv in F as (v & Hv & Ha)
    end.
    rewrite Hrun in Hv. injection Hv as <-.
    unfold v_AnyConnectorAction in Ha. rewrite Htag, Hmember in Ha.
    apply at_loc_valid_inv in Ha. split; [exact Ha|].
    now apply (member_valid_inv tag member d); [apply dict_get_In|].
  - intros errs Herrs.
    destruct (step_run_invalid_all kw (VDict d)
                (List.map (under (LKey tag)) errs) Hrun) as (errs' & Hv & Hin).
    + unfold v_AnyConnectorAction. now rewrite Htag, Hmember, Herrs.
    + exists errs'. split; [exact Hv|]. intros e He. now apply Hin, in_map.
Qed.

Lemma step_action_by_tag_witness :
  exists errs',
    @model_validate ConnectorStep.t _
      [ ("id", VStr "r"); ("name", VStr "Read");
        ("connection_source", VStr "file:docs");
        ("run", VDict [("action", VStr "read_content")]) ]
    = Invalid errs'
    /\ forall e,
        In e [mkError missing [LKey "path"]] ->
        In (under (LKey "run") (under (LKey "read_content") e)) errs'.
Proof.
  refine (proj2 (step_action_by_tag
                   [ ("id", VStr "r"); ("name", VStr "Read");
                     ("connection_source", VStr "file:docs");
                     ("run", VDict [("action", VStr "read_content")]) ]
                   [("action", VStr "read_content")] "read_content"
                   (fun d => OfReadContent <$> model_validate d) _ _ _)
            [mkError missing [LKey "path"]] _); reflexivity.
Defined.

Lemma aggregate_absent (d : pydict) :
  dict_get "source_paths" d = None ->
  dict_get "source_results" d = None ->
  is_valid (@model_validate AggregateContentAction.t _ d) = false
  /\ (is_valid (@validate_fields AggregateContentAction.t _ d) = true ->
      @model_validate AggregateContentAction.t _ d
      = fail (value_error AggregateContentAction.source_error)).
Proof.
  intros Hp Hr.
  assert (Ep : optional "source_paths" None (v_optional (v_list v_str)) d
               = Valid None) by (unfold optional; now rewrite Hp).
  assert (Er : optional "source_results" None (v_optional (v_list v_str)) d
               = Valid None) by (unfold optional; now rewrite Hr).
  unfold model_validate.
  cbn [validate_fields after_validator AggregateContentAction.model].
  rewrite Ep, Er.
  destruct (required "action" (v_literal "aggregate_content") d),
           (required "target_path" v_str d),
           (optional "header_template" None (v_optional v_str) d),
           (optional "metadata" [] (v_dict v_any) d);
    cbn; split; try reflexivity; discriminate.
Qed.

(** X9. The source check of [AggregateContentAction] also guards the
    steps: a step whose [run] is an [aggregate_content] action with
    neither [source_paths] nor [source_results] is rejected, and when the
    other fields of the action validate, the raised errors hold the
    [ValueError] of the check under [run], [aggregate_content]. *)
Theorem step_aggregate_needs_source (kw d : pydict) :
  dict_get "run" kw = Some (VDict d) ->
  dict_get "action" d = Some (VStr "aggregate_content") ->
  dict_get "source_paths" d = None ->
  dict_get "source_results" d = None ->
  exists errs,
    @model_validate ConnectorStep.t _ kw = Invalid errs
    /\ (is_valid (@validate_fields AggregateContentAction.t _ d) = true ->
        In (mkError (value_error AggregateContentAction.source_error)
              [LKey "run"; LKey "aggregate_content"]) errs).
Proof.
  intros Hrun Htag Hp Hr.
  destruct (aggregate_absent d Hp Hr) as (Hinv & Hval).
  destruct (@model_validate AggregateContentAction.t _ d) as [|errs0] eqn:Hm;
    [discriminate Hinv|].
  destruct (step_run_invalid_all kw (VDict d)
              (List.map (under (LKey "aggregate_content")) errs0) Hrun)
    as (errs & Hv & Hin).
  - unfold v_AnyConnectorAction. rewrite Htag. cbn. now rewrite Hm.
  - exists errs. split; [exact Hv|]. intros Hfields.
    specialize (Hval Hfields). injection Hval as ->.
    apply (Hin (mkError (value_error AggregateContentAction.source_error)
                  [LKey "aggregate_content"])).
    cbn. auto.
Qed.

Lemma step_aggregate_needs_source_witness :
  exists errs,
    @model_validate ConnectorStep.t _
      [ ("id", VStr "agg"); ("name", VStr "Aggregate");
        ("connection_source", VStr "file:docs");
        ("run", VDict Samples.aggregate_rest) ]
    = Invalid errs
    /\ In (mkError (value_error AggregateContentAction.source_error)
             [LKey "run"; LKey "aggregate_content"]) errs.
Proof.
  destruct (step_aggregate_needs_source
              [ ("id", VStr "agg"); ("name", VStr "Aggregate");
                ("connection_source", VStr "file:docs");
                ("run", VDict Samples.aggregate_rest) ]
              Samples.aggregate_rest eq_refl eq_refl eq_refl eq_refl)
    as (errs & Hv & Hin).
  exists errs. split; [exact Hv|]. apply Hin. reflexivity.
Defined.

(* ------------------------------------------------------------------ *)
(** ** Scripts: where the errors of the steps go *)

Lemma errors_of_vmap {A B : Type} (f : A -> B) (x : validated A) :
  errors_of (f <$> x) = errors_of x.
Proof. now destruct x. Qed.

Lemma items_from_errors {A : Type} (val : validator A) (l : list pyval) :
  forall (i j : nat) (x : pyval) (e : ErrorDetails),
    nth_error l j = Some x ->
    In e (errors_of (val x)) ->
    In (under (LIdx (i + j)) e) (errors_of (items_from val i l)).
Proof.
  induction l as [|y l IH]; intros i j x e Hj He.
  - now destruct j.
  - cbn [items_from].
    rewrite errors_of_vap, errors_of_vmap, errors_of_at_loc, in_app_iff.
    destruct j as [|j]; cbn in Hj.
    + injection Hj as ->. left. rewrite Nat.add_0_r. now apply in_map.
    + right. rewrite Nat.add_succ_r. now apply (IH (S i) j x).
Qed.

Lemma items_from_invalid {A : Type} (val : validator A) (l : list pyval) :
  forall (i j : nat) (x : pyval),
    nth_error l j = Some x ->
    is_valid (val x) = false ->
    is_valid (items_from val i l) = false.
Proof.
  intros i j x Hj Hx. rewrite is_valid_items_from.
  apply not_true_is_false. intros Hall.
  rewrite forallb_forall in Hall.
  apply nth_error_In in Hj. apply Hall in Hj. congruence.
Qed.

(** X10. A script with a step that does not validate is rejected, and the
    errors of that step are all in the raised list, each under [steps]
    and the position of the step. *)
Theorem script_step_errors_located (kw : pydict) (items : list pyval)
  (i : nat) (item : pyval) (errs : list ErrorDetails) :
  dict_get "steps" kw = Some (VList items) ->
  nth_error items i = Some item ->
  @v_model ConnectorStep.t _ item = Invalid errs ->
  exists errs',
    @model_validate ConnectorScript.t _ kw = Invalid errs'
    /\ forall e, In e errs ->
                 In (under (LKey "steps") (under (LIdx i) e)) errs'.
Proof.
  intros Hsteps Hi Hitem.
  assert (Hreq : required "steps" (v_list (@v_model ConnectorStep.t _)) kw
                 = at_loc (LKey "steps") (items_from v_model 0 items))
    by (unfold required; now rewrite Hsteps).
  eexists. split.
  - apply model_validate_invalid. cbn [validate_fields ConnectorScript.model].
    rewrite !is_valid_vap, Hreq, is_valid_at_loc.
    rewrite (items_from_invalid _ _ 0 i item Hi) by now rewrite Hitem.
    now rewrite !andb_false_r.
  - intros e He. cbn [validate_fields ConnectorScript.model].
    rewrite !errors_of_vap, Hreq, errors_of_at_loc, !in_app_iff.
    left. left. right. apply in_map.
    apply (items_from_errors _ _ 0 i item); [exact Hi|now rewrite Hitem].
Qed.

Lemma script_step_errors_located_witness :
  exists errs',
    @model_validate ConnectorScript.t _
      [ ("name", VStr "nightly");
        ("steps", VList [ VDict (Samples.step_with_id "a" "A");
                          VDict Samples.step_no_id ]) ]
    = Invalid errs'
    /\ forall e,
        In e [mkError missing [LKey "id"]] ->
        In (under (LKey "steps") (under (LIdx 1) e)) errs'.
Proof.
  apply (script_step_errors_located
           [ ("name", VStr "nightly");
             ("steps", VList [ VDict (Samples.step_with_id "a" "A");
                               VDict Samples.step_no_id ]) ]
           [ VDict (Samples.step_with_id "a" "A"); VDict Samples.step_no_id ]
           1 (VDict Samples.step_no_id)); reflexivity.
Defined.

Lemma items_from_Forall2_iff {A : Type} (val : validator A) (l : list pyval)
  (l' : list A) :
  forall i : nat,
    items_from val i l = Valid l' <-> Forall2 (fun x a => val x = Valid a) l l'.
Proof.
  intros i. split; [apply items_from_Forall2|].
  intros H. revert i. induction H as [|x a l l' Hx _ IH]; intros i; cbn.
  - reflexivity.
  - now rewrite Hx, IH.
Qed.

Lemma script_input_iff (kw : pydict) (x : option pydict) :
  optional "script_input" (Some []) (v_optional (v_dict v_any)) kw = Valid x
  <-> (dict_get "script_input" kw = None /\ x = Some [])
      \/ (dict_get "script_input" kw = Some VNone /\ x = None)
      \/ (exists d, dict_get "script_input" kw = Some (VDict d) /\ x = Some d).
Proof.
  split.
  - intros [(Hk & ->)|(v & Hk & Hv)]%optional_valid_inv; [auto|].
    right. destruct v as [| | | | |d]; try discriminate Hv.
    + injection Hv as <-. auto.
    + cbn in Hv. rewrite entries_any in Hv. injection Hv as <-. eauto.
  - unfold optional.
    intros [(-> & ->)|[(-> & ->)|(d & -> & ->)]]; try reflexivity.
    cbn. now rewrite entries_any.
Qed.

(** X11. The constructor of a script, in full. A script is constructed
    exactly from arguments with a string [name], a list [steps] whose
    items each construct a step on their own, and, each left out, [None]
    or given: a string [description], a mapping [cache_config] and a
    mapping [script_input]; it stores the name, the steps that the items
    construct, in order, and the other arguments as given, with the empty
    mapping for a [script_input] left out. *)
Theorem script_accepts (kw : pydict) (script : ConnectorScript.t) :
  model_validate kw = Valid script
  <-> dict_get "name" kw = Some (VStr (ConnectorScript.name script))
      /\ given_as "description" kw VStr (ConnectorScript.description script)
      /\ (exists items,
             dict_get "steps" kw = Some (VList items)
             /\ Forall2 (fun item step => v_model item = Valid step)
                  items (ConnectorScript.steps script))
      /\ given_as "cache_config" kw VDict (ConnectorScript.cache_config script)
      /\ ((dict_get "script_input" kw = None
           /\ ConnectorScript.script_input script = Some [])
          \/ (dict_get "script_input" kw = Some VNone
              /\ ConnectorScript.script_input script = None)
          \/ (exists d,
                 dict_get "script_input" kw = Some (VDict d)
                 /\ ConnectorScript.script_input script = Some d)).
Proof.
  assert (Hstr : forall k (s : option string),
             optional k None (v_optional v_str) kw = Valid s
             <-> given_as k kw VStr s).
  { intros k s. apply optional_given_iff; [apply v_str_iff|discriminate]. }
  assert (Hdict : forall k (d : option pydict),
             optional k None (v_optional (v_dict v_any)) kw = Valid d
             <-> given_as k kw VDict d).
  { intros k d. apply optional_given_iff; [apply v_any_dict_iff|discriminate]. }
  assert (Hsteps : forall l : list ConnectorStep.t,
             required "steps" (v_list v_model) kw = Valid l
             <-> exists items,
                 dict_get "steps" kw = Some (VList items)
                 /\ Forall2 (fun item step => v_model item = Valid step)
                      items l).
  { intros l. rewrite required_iff. split.
    - intros (v & Hk & Hv). destruct v as [| | | |items|]; try discriminate Hv.
      exists items. split; [exact Hk|]. now apply items_from_Forall2 in Hv.
    - intros (items & Hk & Hall). exists (VList items). split; [exact Hk|].
      cbn [v_list]. now apply items_from_Forall2_iff. }
  split.
  - intros (self & Hf & Ha)%model_validate_valid_inv.
    cbn in Ha. injection Ha as <-. cbn in Hf. valid_fields. cbn.
    repeat match goal with
      | F : required _ v_str kw = Valid _ |- _ => apply required_str_given in F
      | F : required "steps" _ kw = Valid _ |- _ => apply Hsteps in F
      | F : optional "script_input" _ _ kw = Valid _ |- _ =>
          apply script_input_iff in F
      | F : optional _ None (v_optional v_str) kw = Valid _ |- _ =>
          apply Hstr in F
      | F : optional _ None (v_optional (v_dict v_any)) kw = Valid _ |- _ =>
          apply Hdict in F
      end.
    repeat split; assumption.
  - destruct script as [n de st cc si]; cbn.
    intros (Hn%required_str_written & Hde%Hstr & Hst%Hsteps & Hcc%Hdict
            & Hsi%script_input_iff).
    unfold model_validate.
    cbn [validate_fields after_validator ConnectorScript.model].
    now rewrite Hn, Hde, Hst, Hcc, Hsi.
Qed.

(* ------------------------------------------------------------------ *)
(** ** A raised validation error is never empty *)

Section Reports.
Context {A B : Type}.

Lemma reports_valid (a : A) : Valid a <> Invalid [].
Proof. discriminate. Qed.

Lemma reports_fail (t : error_type) : @fail A t <> Invalid [].
Proof. discriminate. Qed.

Lemma reports_vmap (f : A -> B) (x : validated A) :
  x <> Invalid [] -> f <$> x <> Invalid [].
Proof. destruct x; cbn; [discriminate|congruence]. Qed.

Lemma reports_vap (f : validated (A -> B)) (x : validated A) :
  f <> Invalid [] -> x <> Invalid [] -> f <*> x <> Invalid [].
Proof.
  destruct f as [g|e1], x as [a|e2]; cbn; try discriminate; try congruence.
  intros H1 _ [= E]. apply app_eq_nil in E as (-> & _). now apply H1.
Qed.

Lemma reports_at_loc (i : loc_item) (x : validated A) :
  x <> Invalid [] -> at_loc i x <> Invalid [].
Proof.
  destruct x as [a|errs]; cbn; [discriminate|].
  intros H [= E]. apply map_eq_nil in E. congruence.
Qed.

Lemma reports_required (k : string) (val : validator A) (kw : pydict) :
  (forall v, val v <> Invalid []) -> required k val kw <> Invalid [].
Proof.
  intros H. unfold required. destruct (dict_get k kw); [|discriminate].
  now apply reports_at_loc.
Qed.

Lemma reports_optional (k : string) (default : A) (val : validator A)
  (kw : pydict) :
  (forall v, val v <> Invalid []) -> optional k default val kw <> Invalid [].
Proof.
  intros H. unfold optional. destruct (dict_get k kw); [|discriminate].
  now apply reports_at_loc.
Qed.

End Reports.

Lemma reports_v_optional {A : Type} (val : validator A) :
  (forall v, val v <> Invalid []) -> forall v, v_optional val v <> Invalid [].
Proof.
  intros H v. unfold v_optional.
  destruct v; try discriminate; now apply reports_vmap.
Qed.

Lemma reports_v_list {A : Type} (val : validator A) :
  (forall v, val v <> Invalid []) -> forall v, v_list val v <> Invalid [].
Proof.
  intros H v. destruct v as [| | | |l|]; try discriminate. cbn.
  generalize 0. induction l as [|x l IH]; intros i; cbn; [discriminate|].
  apply reports_vap; [|apply IH].
  now apply reports_vmap, reports_at_loc.
Qed.

Lemma reports_v_dict {A : Type} (val : validator A) :
  (forall v, val v <> Invalid []) -> forall v, v_dict val v <> Invalid [].
Proof.
  intros H v. destruct v as [| | | | |d]; try discriminate. cbn.
  induction d as [|[k x] d IH]; cbn; [discriminate|].
  apply reports_vap; [|apply IH].
  now apply reports_vmap, reports_vmap, reports_at_loc.
Qed.

Lemma reports_v_str (v : pyval) : v_str v <> Invalid [].
Proof. destruct v; discriminate. Qed.

Lemma reports_v_any (v : pyval) : v_any v <> Invalid [].
Proof. discriminate. Qed.

Lemma reports_v_literal (expected : string) (v : pyval) :
  v_literal expected v <> Invalid [].
Proof.
  destruct v as [| | |s| |]; cbn; try discriminate.
  destruct (String.eqb s expected); discriminate.
Qed.

Lemma reports_model_validate {T : Type} `{BaseModel T} (kw : pydict) :
  validate_fields kw <> Invalid [] -> model_validate kw <> Invalid [].
Proof.
  unfold model_validate. destruct (validate_fields kw) as [self|errs].
  - intros _. destruct (after_validator self); discriminate.
  - trivial.
Qed.

Lemma reports_v_model {T : Type} `{BaseModel T} :
  (forall kw, validate_fields kw <> Invalid []) ->
  forall v, v_model v <> Invalid [].
Proof.
  intros Hf v. destruct v; try discriminate.
  apply reports_model_validate, Hf.
Qed.

(** Decompose a field-by-field validation down to the field types. *)
Ltac reports_fields :=
  repeat first
    [ match goal with |- forall _, _ <> _ => intro end
    | apply reports_vap
    | apply reports_vmap
    | apply reports_required
    | apply reports_optional
    | apply reports_at_loc
    | apply reports_v_optional
    | apply reports_v_list
    | apply reports_v_dict
    | apply reports_v_str
    | apply reports_v_any
    | apply reports_v_literal
    | apply reports_model_validate
    | apply reports_v_model
    | progress cbn [validate_fields RunSqlQueryAction.model
                      TestConnectionAction.model BrowsePathAction.model
                      ReadContentAction.model RunDeclarativeAction.model
                      AggregateContentAction.model RunPythonScriptAction.model
                      FileToWrite.model WriteFilesAction.model
                      RunTransformAction.model ConnectorStep.model
                      ConnectorScript.model] ].

Lemma reports_action (v : pyval) : v_AnyConnectorAction v <> Invalid [].
Proof.
  destruct v as [| | | | |d]; try discriminate.
  unfold v_AnyConnectorAction.
  destruct (dict_get "action" d) as [[| | |tag| |]|]; try discriminate.
  destruct (dict_get tag union_choices) as [member|] eqn:Hm; [|discriminate].
  apply reports_at_loc.
  apply dict_get_In in Hm. unfold union_choices in Hm. cbn [In] in Hm.
  repeat (destruct Hm as [[= <- <-]|Hm]; [solve [reports_fields]|]).
  destruct Hm.
Qed.

Lemma reports_step_fields (kw : pydict) :
  @validate_fields ConnectorStep.t _ kw <> Invalid [].
Proof. reports_fields. apply reports_action. Qed.

(** X12. Whenever the constructor of a script raises, the raised list
    holds at least one error; the same holds for a step. *)
Theorem rejection_names_an_error (kw : pydict) (errs : list ErrorDetails) :
  @model_validate ConnectorScript.t _ kw = Invalid errs
  \/ @model_validate ConnectorStep.t _ kw = Invalid errs ->
  errs <> [].
Proof.
  intros [H|H] ->; revert H.
  - reports_fields. apply reports_action.
  - apply reports_model_validate, reports_step_fields.
Qed.

Lemma rejection_names_an_error_witness :
  [mkError missing [LKey "id"]] <> [].
Proof.
  apply (rejection_names_an_error Samples.step_no_id).
  right. reflexivity.
Defined.

(* ------------------------------------------------------------------ *)
(** ** What each action class accepts *)

Lemma required_str_iff (k : string) (kw : pydict) (s : string) :
  required k v_str kw = Valid s <-> dict_get k kw = Some (VStr s).
Proof.
  split; [apply required_str_given|].
  intros H. unfold required. now rewrite H.
Qed.

Lemma required_literal_iff (k lit : string) (kw : pydict) (s : string) :
  required k (v_literal lit) kw = Valid s
  <-> dict_get k kw = Some (VStr lit) /\ s = lit.
Proof.
  split.
  - now intros (v & -> & (-> & ->)%v_literal_valid_inv)%required_valid_inv.
  - intros (H & ->). unfold required. rewrite H. cbn.
    now rewrite String.eqb_refl.
Qed.

Lemma optional_dict_iff (k : string) (kw d : pydict) :
  optional k [] (v_dict v_any) kw = Valid d
  <-> (dict_get k kw = None /\ d = []) \/ dict_get k kw = Some (VDict d).
Proof.
  split.
  - intros [?|(v & Hk & ->%v_any_dict_inv)]%optional_valid_inv; auto.
  - unfold optional. intros [(-> & ->)| ->]; [reflexivity|].
    cbn. now rewrite entries_any.
Qed.

Lemma optional_str_iff (k default : string) (kw : pydict) (s : string) :
  optional k default v_str kw = Valid s
  <-> (dict_get k kw = None /\ s = default) \/ dict_get k kw = Some (VStr s).
Proof.
  split.
  - intros [?|(v & Hk & ->%v_str_valid_inv)]%optional_valid_inv; auto.
  - unfold optional. now intros [(-> & ->)| ->].
Qed.

(** X13. The three actions that carry a free mapping. [RunSqlQueryAction]
    is constructed exactly from arguments with the tag [run_sql_query], a
    string [query] and, if given, a mapping [parameters]; it stores the
    query and the mapping as given, the empty mapping when none is given.
    The same holds for [RunDeclarativeAction] with [template_key] and
    [context], and for [RunTransformAction] with [script_path] and
    [input_data]. *)
Theorem mapping_actions_accept (kw : pydict) :
  (forall a : RunSqlQueryAction.t,
      model_validate kw = Valid a
      <-> dict_get "action" kw = Some (VStr "run_sql_query")
          /\ RunSqlQueryAction.action a = "run_sql_query"
          /\ dict_get "query" kw = Some (VStr (RunSqlQueryAction.query a))
          /\ ((dict_get "parameters" kw = None
               /\ RunSqlQueryAction.parameters a = [])
              \/ dict_get "parameters" kw
                 = Some (VDict (RunSqlQueryAction.parameters a))))
  /\ (forall a : RunDeclarativeAction.t,
         model_validate kw = Valid a
         <-> dict_get "action" kw = Some (VStr "run_declarative_action")
             /\ RunDeclarativeAction.action a = "run_declarative_action"
             /\ dict_get "template_key" kw
                = Some (VStr (RunDeclarativeAction.template_key a))
             /\ ((dict_get "context" kw = None
                  /\ RunDeclarativeAction.context a = [])
                 \/ dict_get "context" kw
                    = Some (VDict (RunDeclarativeAction.context a))))
  /\ (forall a : RunTransformAction.t,
         model_validate kw = Valid a
         <-> dict_get "action" kw = Some (VStr "run_transform")
             /\ RunTransformAction.action a = "run_transform"
             /\ dict_get "script_path" kw
                = Some (VStr (RunTransformAction.script_path a))
             /\ ((dict_get "input_data" kw = None
                  /\ RunTransformAction.input_data a = [])
                 \/ dict_get "input_data" kw
                    = Some (VDict (RunTransformAction.input_data a)))).
Proof.
  split; [|split]; intros a; split.
  all: try (intros (self & Hf & Ha)%model_validate_valid_inv;
            cbn in Ha; injection Ha as <-; cbn in Hf; valid_fields; cbn;
            repeat match goal with
              | F : required _ (v_literal _) _ = Valid _ |- _ =>
                  apply required_literal_iff in F as (? & ->)
              | F : required _ v_str _ = Valid _ |- _ =>
                  apply required_str_iff in F
              | F : optional _ [] (v_dict v_any) _ = Valid _ |- _ =>
                  apply optional_dict_iff in F
              end;
            now auto).
  all: destruct a as [act s d]; cbn;
    intros (Hact & -> & Hs & Hd);
    apply (fun H => proj2 (required_literal_iff _ _ _ _) (conj H eq_refl)) in Hact;
    apply required_str_iff in Hs; apply optional_dict_iff in Hd;
    unfold model_validate;
    cbn [validate_fields after_validator RunSqlQueryAction.model
           RunDeclarativeAction.model RunTransformAction.model];
    now rewrite Hact, Hs, Hd.
Qed.

Lemma required_literal_written (k lit : string) (kw : pydict) :
  dict_get k kw = Some (VStr lit) -> required k (v_literal lit) kw = Valid lit.
Proof. intros H. now apply required_literal_iff. Qed.

(** Read the fields of a successful validation as facts on the
    arguments. *)
Ltac read_fields :=
  repeat match goal with
    | F : required _ (v_literal _) _ = Valid _ |- _ =>
        apply required_literal_iff in F as (? & ->)
    | F : required _ v_str _ = Valid _ |- _ => apply required_str_iff in F
    | F : optional _ [] (v_dict v_any) _ = Valid _ |- _ =>
        apply optional_dict_iff in F
    | F : optional _ _ v_str _ = Valid _ |- _ => apply optional_str_iff in F
    end.

(** X14. The four actions that carry strings only. [TestConnectionAction]
    is constructed exactly from arguments with its tag;
    [ReadContentAction] needs a string [path] besides and stores it;
    [BrowsePathAction] stores the string [path] if one is given and "/"
    if none is; [RunPythonScriptAction] needs a string [script_path] and
    stores the string [input_data_json] if one is given and "{}" if none
    is. *)
Theorem string_actions_accept (kw : pydict) :
  (forall a : TestConnectionAction.t,
      model_validate kw = Valid a
      <-> dict_get "action" kw = Some (VStr "test_connection")
          /\ TestConnectionAction.action a = "test_connection")
  /\ (forall a : ReadContentAction.t,
         model_validate kw = Valid a
         <-> dict_get "action" kw = Some (VStr "read_content")
             /\ ReadContentAction.action a = "read_content"
             /\ dict_get "path" kw = Some (VStr (ReadContentAction.path a)))
  /\ (forall a : BrowsePathAction.t,
         model_validate kw = Valid a
         <-> dict_get "action" kw = Some (VStr "browse_path")
             /\ BrowsePathAction.action a = "browse_path"
             /\ ((dict_get "path" kw = None /\ BrowsePathAction.path a = "/")
                 \/ dict_get "path" kw = Some (VStr (BrowsePathAction.path a))))
  /\ (forall a : RunPythonScriptAction.t,
         model_validate kw = Valid a
         <-> dict_get "action" kw = Some (VStr "run_python_script")
             /\ RunPythonScriptAction.action a = "run_python_script"
             /\ dict_get "script_path" kw
                = Some (VStr (RunPythonScriptAction.script_path a))
             /\ ((dict_get "input_data_json" kw = None
                  /\ RunPythonScriptAction.input_data_json a = "{}")
                 \/ dict_get "input_data_json" kw
                    = Some (VStr (RunPythonScriptAction.input_data_json a)))).
Proof.
  split; [|split; [|split]]; intros a; split.
  all: try (intros (self & Hf & Ha)%model_validate_valid_inv;
            cbn in Ha; injection Ha as <-; cbn in Hf; valid_fields; cbn;
            read_fields; now auto).
  - destruct a as [act]; cbn. intros (Hact%required_literal_written & ->).
    unfold model_validate. cbn [validate_fields TestConnectionAction.model].
    now rewrite Hact.
  - destruct a as [act p]; cbn.
    intros (Hact%required_literal_written & -> & Hp%required_str_iff).
    unfold model_validate. cbn [validate_fields ReadContentAction.model].
    now rewrite Hact, Hp.
  - destruct a as [act p]; cbn.
    intros (Hact%required_literal_written & -> & Hp%optional_str_iff).
    unfold model_validate. cbn [validate_fields BrowsePathAction.model].
    now rewrite Hact, Hp.
  - destruct a as [act p j]; cbn.
    intros (Hact%required_literal_written & -> & Hp%required_str_iff
            & Hj%optional_str_iff).
    unfold model_validate. cbn [validate_fields RunPythonScriptAction.model].
    now rewrite Hact, Hp, Hj.
Qed.

Lemma file_to_write_iff (item : pyval) (f : FileToWrite.t) :
  v_model item = Valid f
  <-> exists d, item = VDict d
                /\ dict_get "path" d = Some (VStr (FileToWrite.path f))
                /\ dict_get "content" d = Some (VStr (FileToWrite.content f)).
Proof.
  split.
  - destruct item as [| | | | |d]; try discriminate.
    intros (self & Hf & Ha)%model_validate_valid_inv.
    cbn in Ha; injection Ha as <-; cbn in Hf; valid_fields; cbn.
    read_fields. eauto.
  - intros (d & -> & Hp%required_str_iff & Hc%required_str_iff).
    destruct f as [p c]. cbn in *. unfold model_validate.
    cbn [validate_fields FileToWrite.model]. now rewrite Hp, Hc.
Qed.

(** X15. [WriteFilesAction] is constructed exactly from arguments with
    its tag and a list [files] whose items are mappings with a string
    [path] and a string [content]; it stores one file per item, in order,
    with these two strings. The empty list is accepted. *)
Theorem write_files_accepts (kw : pydict) (a : WriteFilesAction.t) :
  model_validate kw = Valid a
  <-> dict_get "action" kw = Some (VStr "write_files")
      /\ WriteFilesAction.action a = "write_files"
      /\ exists items,
          dict_get "files" kw = Some (VList items)
          /\ Forall2
               (fun item f =>
                  exists d,
                    item = VDict d
                    /\ dict_get "path" d = Some (VStr (FileToWrite.path f))
                    /\ dict_get "content" d
                       = Some (VStr (FileToWrite.content f)))
               items (WriteFilesAction.files a).
Proof.
  split.
  - intros (self & Hf & Ha)%model_validate_valid_inv.
    cbn in Ha; injection Ha as <-; cbn in Hf; valid_fields; cbn.
    read_fields.
    match goal with
    | F : required "files" _ kw = Valid _ |- _ =>
        apply required_valid_inv in F as (v & Hfiles & Hv)
    end.
    destruct v as [| | | |items|]; try discriminate Hv.
    repeat split; try assumption. exists items. split; [assumption|].
    apply items_from_Forall2 in Hv.
    eapply Forall2_impl; [|exact Hv]. intros item f. apply file_to_write_iff.
  - destruct a as [act fs]; cbn.
    intros (Hact%required_literal_written & -> & items & Hfiles & Hall).
    unfold model_validate. cbn [validate_fields WriteFilesAction.model].
    rewrite Hact. unfold required. rewrite Hfiles. cbn [v_list].
    assert (Hitems : items_from (@v_model FileToWrite.t _) 0 items = Valid fs).
    { apply items_from_Forall2_iff.
      eapply Forall2_impl; [|exact Hall]. intros item f. apply file_to_write_iff. }
    now rewrite Hitems.
Qed.

(** X16. [AggregateContentAction] is constructed exactly from arguments
    with its tag, a string [target_path], optional lists of strings
    [source_paths] and [source_results], an optional string
    [header_template] and, if given, a mapping [metadata], of which at
    least one of the two lists is non-empty; it stores all of them as
    given. *)
Theorem aggregate_accepts (kw : pydict) (a : AggregateContentAction.t) :
  model_validate kw = Valid a
  <-> dict_get "action" kw = Some (VStr "aggregate_content")
      /\ AggregateContentAction.action a = "aggregate_content"
      /\ given_as "source_paths" kw str_list
           (AggregateContentAction.source_paths a)
      /\ given_as "source_results" kw str_list
           (AggregateContentAction.source_results a)
      /\ dict_get "target_path" kw
         = Some (VStr (AggregateContentAction.target_path a))
      /\ given_as "header_template" kw VStr
           (AggregateContentAction.header_template a)
      /\ ((dict_get "metadata" kw = None
           /\ AggregateContentAction.metadata a = [])
          \/ dict_get "metadata" kw
             = Some (VDict (AggregateContentAction.metadata a)))
      /\ (truthy (AggregateContentAction.source_paths a)
          || truthy (AggregateContentAction.source_results a)) = true.
Proof.
  assert (Hlist : forall k (l : option (list string)),
             optional k None (v_optional (v_list v_str)) kw = Valid l
             <-> given_as k kw str_list l).
  { intros k l. apply optional_given_iff; [apply v_str_list_iff|discriminate]. }
  assert (Hstr : forall k (s : option string),
             optional k None (v_optional v_str) kw = Valid s
             <-> given_as k kw VStr s).
  { intros k s. apply optional_given_iff; [apply v_str_iff|discriminate]. }
  split.
  - intros (self & Hf & Ha)%model_validate_valid_inv.
    cbn in Ha. unfold AggregateContentAction.check_at_least_one_source in Ha.
    destruct (negb _ && negb _) eqn:Hc in Ha; [discriminate|].
    injection Ha as <-. cbn in Hf. valid_fields. cbn in *.
    read_fields.
    repeat match goal with
      | F : optional _ None (v_optional (v_list v_str)) kw = Valid _ |- _ =>
          apply Hlist in F
      | F : optional _ None (v_optional v_str) kw = Valid _ |- _ =>
          apply Hstr in F
      end.
    repeat split; try assumption.
    now destruct (truthy a3), (truthy a2).
  - destruct a as [act sp sr tp ht md]; cbn.
    intros (Hact%required_literal_written & -> & Hsp%Hlist & Hsr%Hlist
            & Htp%required_str_iff & Hht%Hstr & Hmd%optional_dict_iff & Hc).
    unfold model_validate.
    cbn [validate_fields after_validator AggregateContentAction.model].
    rewrite Hact, Hsp, Hsr, Htp, Hht, Hmd. cbn.
    unfold AggregateContentAction.check_at_least_one_source. cbn.
    now destruct (truthy sp), (truthy sr).
Qed.
